(** * colossus/utils.py: client address, geo location, UUID check and
      per-campaign mail connection

    A shallow embedding of the helper module [colossus/utils.py] and the
    properties its specification states about it.  Python values are kept
    dynamically typed where the code relies on truthiness; exceptions are an
    explicit [result]; the database tables and the logger are threaded as
    state. *)

From Stdlib Require Import ZArith Ascii String List Bool Lia.
From stdpp Require Import base option list strings gmap.

Local Open Scope string_scope.
Local Open Scope Z_scope.
Local Open Scope list_scope.

(** ** Python values, truthiness and exceptions *)

(** The scalar values that reach this module: [None], booleans, integers
    and strings. *)
Inductive value : Type :=
  | VNone
  | VBool (b : bool)
  | VInt (z : Z)
  | VStr (s : string).

(** Python's truth test on these values. *)
Definition truthy (v : value) : bool :=
  match v with
  | VNone => false
  | VBool b => b
  | VInt z => negb (z =? 0)
  | VStr s => negb (String.eqb s "")
  end.

(** [a or b]: the left operand when it is truthy, else the right one. *)
Definition py_or (a b : value) : value := if truthy a then a else b.

(** [v is None]. *)
Definition is_None (v : value) : bool :=
  match v with VNone => true | _ => false end.

(** Equality of values, as the database compares a column with a lookup
    argument. *)
Definition value_eqb (a b : value) : bool :=
  match a, b with
  | VNone, VNone => true
  | VBool x, VBool y => Bool.eqb x y
  | VInt x, VInt y => Z.eqb x y
  | VStr x, VStr y => String.eqb x y
  | _, _ => false
  end.

(** The exceptions that can travel through the functions below. *)
Inductive exn : Type :=
  | ValueError
  | TypeError
  | AttributeError
  | IndexError
  | KeyError
  | AddressNotFoundError
  | MultipleObjectsReturned
  | OtherError (name : string).

Inductive result (A : Type) : Type :=
  | Ok (a : A)
  | Raise (e : exn).

Arguments Ok {A} a.
Arguments Raise {A} e.

(** A dictionary with string keys: [d.get(k)] and [d[k]]. *)
Definition dict_get (d : gmap string value) (k : string) : value :=
  match d !! k with Some v => v | None => VNone end.

Definition dict_item (d : gmap string value) (k : string) : result value :=
  match d !! k with Some v => Ok v | None => Raise KeyError end.

(** ** Strings: the [str] methods the module calls *)

Module Str.

(** [s.split(sep)] for a one-character separator: the pieces between the
    separators, never an empty list. *)
Fixpoint split (sep : ascii) (s : string) : list string :=
  match s with
  | EmptyString => [EmptyString]
  | String c r =>
      if Ascii.eqb c sep then EmptyString :: split sep r
      else match split sep r with
           | h :: t => String c h :: t
           | [] => [String c EmptyString]
           end
  end.

(** Does the character occur in the string? *)
Fixpoint mem (c : ascii) (s : string) : bool :=
  match s with
  | EmptyString => false
  | String d r => Ascii.eqb c d || mem c r
  end.

(** [s.replace(old, new)]: every occurrence of [old], scanning from the
    left without overlap, is replaced by [new].  [skip] counts the
    characters of a matched occurrence still to be passed over. *)
Fixpoint replace_from (old new : string) (skip : nat) (s : string) : string :=
  match s with
  | EmptyString => EmptyString
  | String c r =>
      match skip with
      | S k => replace_from old new k r
      | O =>
          if String.prefix old s
          then new +:+ replace_from old new (Nat.pred (String.length old)) r
          else String c (replace_from old new O r)
      end
  end.

(** With an empty [old] Python puts [new] before every character and at
    the end. *)
Fixpoint intersperse (new s : string) : string :=
  match s with
  | EmptyString => new
  | String c r => new +:+ String c (intersperse new r)
  end.

Definition replace (old new s : string) : string :=
  match old with
  | EmptyString => intersperse new s
  | _ => replace_from old new O s
  end.

(** [s.lstrip(chars)], [s.rstrip(chars)] and [s.strip(chars)]. *)
Fixpoint lstrip (chars s : string) : string :=
  match s with
  | EmptyString => EmptyString
  | String c r => if mem c chars then lstrip chars r else s
  end.

Fixpoint rstrip (chars s : string) : string :=
  match s with
  | EmptyString => EmptyString
  | String c r =>
      match rstrip chars r with
      | EmptyString => if mem c chars then EmptyString else String c EmptyString
      | r' => String c r'
      end
  end.

Definition strip (chars s : string) : string := rstrip chars (lstrip chars s).

End Str.

(** ** get_client_ip and ip_address_key *)

(** An [HttpRequest], reduced to its [META] dictionary of header values. *)
Record HttpRequest : Type := { META : gmap string string }.

(** [get_client_ip]: the first entry of [HTTP_X_FORWARDED_FOR] when that
    header holds a non-empty string, else whatever [REMOTE_ADDR] holds
    ([None] when it is missing). *)
Definition get_client_ip (request : HttpRequest) : result (option string) :=
  let x_forwarded_for := META request !! "HTTP_X_FORWARDED_FOR" in
  match x_forwarded_for with
  | Some x =>
      if negb (String.eqb x "")
      then match Str.split "," x !! 0%nat with
           | Some ip => Ok (Some ip)
           | None => Raise IndexError
           end
      else Ok (META request !! "REMOTE_ADDR")
  | None => Ok (META request !! "REMOTE_ADDR")
  end.

(** [ip_address_key]: the key function handed to the rate limiter. *)
Definition ip_address_key (group : value) (request : HttpRequest)
  : result (option string) :=
  get_client_ip request.

(** ** get_location *)

(** Modelled from the spec: the [Country] and [City] models are declared in
    colossus/apps/core/models.py, outside the module embedded here.  The
    spec describes them as lookup-table rows keyed by the country code
    and by the pair (name, country); a row carries its primary key, and a
    city refers to its country by that key. *)
Record Country : Type :=
  { Country_pk : nat; Country_code : value; Country_name : value }.

Record City : Type :=
  { City_pk : nat; City_name : value; City_country : nat }.

(** One record handed to the module's logger. *)
Record LogRecord : Type := { levelname : string; message : string }.

(** What [get_location] reads and writes: the two tables and the log. *)
Record State : Type :=
  { countries : list Country; cities : list City; log : list LogRecord }.

(** The key the database gives to a new row: one past the largest in use. *)
Definition next_pk (pks : list nat) : nat := S (foldr Nat.max O pks).

Definition Country_matches (code : value) (r : Country) : bool :=
  value_eqb (Country_code r) code.

Definition City_matches (name : value) (country : Country) (r : City) : bool :=
  value_eqb (City_name r) name && Nat.eqb (City_country r) (Country_pk country).

(** [Country.objects.get_or_create(code=code, defaults={'name': name})]:
    the row with that code when there is exactly one, a new row appended
    when there is none, and [MultipleObjectsReturned] otherwise.  The
    boolean is Django's [created] flag. *)
Definition Country_get_or_create (code name : value) (tbl : list Country)
  : result (Country * bool) * list Country :=
  match List.filter (Country_matches code) tbl with
  | [] =>
      let row := {| Country_pk := next_pk (map Country_pk tbl);
                    Country_code := code; Country_name := name |} in
      (Ok (row, true), tbl ++ [row])
  | [row] => (Ok (row, false), tbl)
  | _ :: _ :: _ => (Raise MultipleObjectsReturned, tbl)
  end.

(** [City.objects.get_or_create(name=name, country=country)]. *)
Definition City_get_or_create (name : value) (country : Country) (tbl : list City)
  : result (City * bool) * list City :=
  match List.filter (City_matches name country) tbl with
  | [] =>
      let row := {| City_pk := next_pk (map City_pk tbl);
                    City_name := name; City_country := Country_pk country |} in
      (Ok (row, true), tbl ++ [row])
  | [row] => (Ok (row, false), tbl)
  | _ :: _ :: _ => (Raise MultipleObjectsReturned, tbl)
  end.

(** The double quote, for the messages that quote their argument. *)
Definition dquote : string := String (ascii_of_nat 34) EmptyString.

(** [logger.warning(msg)]. *)
Definition logger_warning (msg : string) (st : State) : State :=
  {| countries := countries st; cities := cities st;
     log := log st ++ [{| levelname := "WARNING"; message := msg |}] |}.

Section GetLocation.

(** [GeoIP2().city(ip_address)]: the vendor's dictionary, or the
    exception the lookup raises. *)
Variable geoip2_city : string -> result (gmap string value).

Definition get_location (ip_address : string) (st : State)
  : result (option City) * State :=
  match geoip2_city ip_address with
  | Ok geodata =>
      if negb (is_None (dict_get geodata "country_code")) then
        match dict_item geodata "country_code" with
        | Raise e => (Raise e, st)
        | Ok code =>
            match dict_item geodata "country_name" with
            | Raise e => (Raise e, st)
            | Ok name =>
                match Country_get_or_create code name (countries st) with
                | (Raise e, tbl) =>
                    (Raise e, {| countries := tbl; cities := cities st;
                                 log := log st |})
                | (Ok (country, created), tbl) =>
                    let st1 := {| countries := tbl; cities := cities st;
                                  log := log st |} in
                    if negb (is_None (dict_get geodata "city")) then
                      match dict_item geodata "city" with
                      | Raise e => (Raise e, st1)
                      | Ok city_name =>
                          match City_get_or_create city_name country (cities st1) with
                          | (Raise e, ctbl) =>
                              (Raise e, {| countries := tbl; cities := ctbl;
                                           log := log st |})
                          | (Ok (city, created), ctbl) =>
                              (Ok (Some city),
                               {| countries := tbl; cities := ctbl;
                                  log := log st |})
                          end
                      end
                    else (Ok None, st1)
                end
            end
        end
      else (Ok None, st)
  | Raise AddressNotFoundError =>
      (Ok None,
       logger_warning ("Address not found for ip_address = " +:+ dquote
                       +:+ ip_address +:+ dquote) st)
  | Raise e => (Raise e, st)
  end.

End GetLocation.

(** ** is_uuid *)

Section IsUuid.

(** The builtin [int(text, base)] on a string: the number read, or
    [None] when it raises [ValueError]. *)
Variable int_ : string -> Z -> option Z.

(** [uuid.UUID(hex)] of the standard library, called with the one
    positional argument: the [urn:] and [uuid:] prefixes, surrounding
    braces and hyphens are dropped, and what remains must be 32
    characters that [int] reads in base 16.  The object built is
    represented by its 128-bit integer. *)
Definition UUID (hex : value) : result Z :=
  match hex with
  | VStr hex =>
      let hex := Str.replace "uuid:" "" (Str.replace "urn:" "" hex) in
      let hex := Str.replace "-" "" (Str.strip "{}" hex) in
      if negb (Nat.eqb (String.length hex) 32) then Raise ValueError
      else
        match int_ hex 16 with
        | None => Raise ValueError
        | Some int =>
            if negb ((0 <=? int) && (int <? Z.shiftl 1 128))
            then Raise ValueError
            else Ok int
        end
  | VNone => Raise TypeError
  | VBool _ | VInt _ => Raise AttributeError
  end.

Definition is_uuid (uuid_value : value) : result bool :=
  match UUID uuid_value with
  | Ok _ => Ok true
  | Raise ValueError => Ok false
  | Raise e => Raise e
  end.

End IsUuid.

(** ** get_campaign_connection *)

(** Modelled from the spec: the [Campaign] and [MailingList] models are
    declared in another application of the project, outside the module
    embedded here.  The spec lists the per-mailing-list
    SMTP overrides, any of which may be unset: host, port, user name,
    password, the use-tls and use-ssl flags, timeout and the SSL key and
    certificate file paths. *)
Record MailingList : Type :=
  { smtp_username : value;
    smtp_password : value;
    smtp_host : value;
    smtp_port : value;
    smtp_use_tls : value;
    smtp_use_ssl : value;
    smtp_timeout : value;
    smtp_ssl_keyfile : value;
    smtp_ssl_certfile : value }.

Record Campaign : Type := { mailing_list : MailingList }.

(** What a caller can pass as [campaign]: a plain value ([None] by
    default) or a campaign object, which is always truthy. *)
Inductive argument : Type :=
  | Plain (v : value)
  | Obj (c : Campaign).

Definition argument_truthy (a : argument) : bool :=
  match a with
  | Plain v => truthy v
  | Obj _ => true
  end.

(** The attributes of a mail connection that the module reads or sets. *)
Record Connection : Type :=
  { host : value;
    port : value;
    username : value;
    password : value;
    use_tls : value;
    use_ssl : value;
    timeout : value;
    ssl_keyfile : value;
    ssl_certfile : value }.

Definition set_use_tls (v : value) (c : Connection) : Connection :=
  {| host := host c; port := port c; username := username c;
     password := password c; use_tls := v; use_ssl := use_ssl c;
     timeout := timeout c; ssl_keyfile := ssl_keyfile c;
     ssl_certfile := ssl_certfile c |}.

Definition set_timeout (v : value) (c : Connection) : Connection :=
  {| host := host c; port := port c; username := username c;
     password := password c; use_tls := use_tls c; use_ssl := use_ssl c;
     timeout := v; ssl_keyfile := ssl_keyfile c;
     ssl_certfile := ssl_certfile c |}.

Definition set_use_ssl (v : value) (c : Connection) : Connection :=
  {| host := host c; port := port c; username := username c;
     password := password c; use_tls := use_tls c; use_ssl := v;
     timeout := timeout c; ssl_keyfile := ssl_keyfile c;
     ssl_certfile := ssl_certfile c |}.

Definition set_ssl_keyfile (v : value) (c : Connection) : Connection :=
  {| host := host c; port := port c; username := username c;
     password := password c; use_tls := use_tls c; use_ssl := use_ssl c;
     timeout := timeout c; ssl_keyfile := v;
     ssl_certfile := ssl_certfile c |}.

Definition set_ssl_certfile (v : value) (c : Connection) : Connection :=
  {| host := host c; port := port c; username := username c;
     password := password c; use_tls := use_tls c; use_ssl := use_ssl c;
     timeout := timeout c; ssl_keyfile := ssl_keyfile c;
     ssl_certfile := v |}.

(** The mail settings of a Django settings module. *)
Record Settings : Type :=
  { EMAIL_HOST : value;
    EMAIL_PORT : value;
    EMAIL_HOST_USER : value;
    EMAIL_HOST_PASSWORD : value;
    EMAIL_USE_TLS : value;
    EMAIL_USE_SSL : value;
    EMAIL_TIMEOUT : value;
    EMAIL_SSL_KEYFILE : value;
    EMAIL_SSL_CERTFILE : value }.

(** [django.conf.global_settings], the module utils.py imports its
    fallback values from: Django's built-in defaults, the values in force
    before the project's own settings are applied. *)
Definition global_settings : Settings :=
  {| EMAIL_HOST := VStr "localhost";
     EMAIL_PORT := VInt 25;
     EMAIL_HOST_USER := VStr "";
     EMAIL_HOST_PASSWORD := VStr "";
     EMAIL_USE_TLS := VBool false;
     EMAIL_USE_SSL := VBool false;
     EMAIL_TIMEOUT := VNone;
     EMAIL_SSL_KEYFILE := VNone;
     EMAIL_SSL_CERTFILE := VNone |}.

Section CampaignConnection.

(** [django.core.mail.get_connection] applied to its keyword
    arguments: the configured backend, built from the keywords given. *)
Variable get_connection : gmap string value -> result Connection.

Definition get_campaign_connection (campaign : argument) : result Connection :=
  if negb (argument_truthy campaign) then get_connection ∅
  else
    match campaign with
    | Plain _ => Raise AttributeError
    | Obj campaign =>
        let ml := mailing_list campaign in
        let smtp_username := py_or (smtp_username ml) (EMAIL_HOST_USER global_settings) in
        let smtp_password := py_or (smtp_password ml) (EMAIL_HOST_PASSWORD global_settings) in
        let smtp_host := py_or (smtp_host ml) (EMAIL_HOST global_settings) in
        let smtp_port := py_or (smtp_port ml) (EMAIL_PORT global_settings) in
        let use_tls := py_or (smtp_use_tls ml) (EMAIL_USE_TLS global_settings) in
        let use_ssl := smtp_use_ssl ml in
        let timeout := smtp_timeout ml in
        let smtp_ssl_keyfile := smtp_ssl_keyfile ml in
        let smtp_ssl_certfile := smtp_ssl_certfile ml in
        match get_connection
                (<["host" := smtp_host]>
                 (<["port" := smtp_port]>
                  (<["username" := smtp_username]>
                   (<["password" := smtp_password]> ∅)))) with
        | Raise e => Raise e
        | Ok connection =>
            let connection :=
              if truthy use_tls then set_use_tls use_tls connection
              else connection in
            let connection :=
              if truthy timeout then set_timeout timeout connection
              else connection in
            let connection :=
              if truthy use_ssl && truthy smtp_ssl_certfile
                 && truthy smtp_ssl_keyfile
              then set_ssl_certfile smtp_ssl_certfile
                     (set_ssl_keyfile smtp_ssl_keyfile
                        (set_use_ssl use_ssl connection))
              else connection in
            Ok connection
        end
    end.

End CampaignConnection.

(** The constructor of Django's SMTP backend, the backend [get_connection]
    builds unless the project names another: a keyword that is not given
    is read from the project's settings, and settings that ask for TLS and
    SSL together are refused. *)
Definition EmailBackend (settings : Settings) (kwds : gmap string value)
  : result Connection :=
  let connection :=
    {| host := py_or (dict_get kwds "host") (EMAIL_HOST settings);
       port := py_or (dict_get kwds "port") (EMAIL_PORT settings);
       username := if is_None (dict_get kwds "username")
                   then EMAIL_HOST_USER settings else dict_get kwds "username";
       password := if is_None (dict_get kwds "password")
                   then EMAIL_HOST_PASSWORD settings else dict_get kwds "password";
       use_tls := if is_None (dict_get kwds "use_tls")
                  then EMAIL_USE_TLS settings else dict_get kwds "use_tls";
       use_ssl := if is_None (dict_get kwds "use_ssl")
                  then EMAIL_USE_SSL settings else dict_get kwds "use_ssl";
       timeout := if is_None (dict_get kwds "timeout")
                  then EMAIL_TIMEOUT settings else dict_get kwds "timeout";
       ssl_keyfile := if is_None (dict_get kwds "ssl_keyfile")
                      then EMAIL_SSL_KEYFILE settings
                      else dict_get kwds "ssl_keyfile";
       ssl_certfile := if is_None (dict_get kwds "ssl_certfile")
                       then EMAIL_SSL_CERTFILE settings
                       else dict_get kwds "ssl_certfile" |} in
  if truthy (use_ssl connection) && truthy (use_tls connection)
  then Raise ValueError
  else Ok connection.

(** ** Notions the statements below use *)

(** [ip] is the first comma-separated entry of [x]: it holds no comma and
    [x] is [ip] alone or [ip] followed by a comma and the rest. *)
Definition first_entry (x ip : string) : Prop :=
  Str.mem "," ip = false /\
  (x = ip \/ exists rest, x = ip +:+ String "," rest).

(** Every character of [s] passes the test [p]. *)
Fixpoint all_chars (p : ascii -> bool) (s : string) : bool :=
  match s with
  | EmptyString => true
  | String c r => p c && all_chars p r
  end.

(** The value of a hexadecimal digit, in either case. *)
Definition hex_digit (c : ascii) : option Z :=
  let n := Z.of_nat (nat_of_ascii c) in
  if (48 <=? n) && (n <=? 57) then Some (n - 48)
  else if (97 <=? n) && (n <=? 102) then Some (n - 87)
  else if (65 <=? n) && (n <=? 70) then Some (n - 55)
  else None.

Definition is_hex (c : ascii) : bool :=
  match hex_digit c with Some _ => true | None => false end.

(** The number a string of hexadecimal digits denotes, most significant
    digit first, continuing from [acc]. *)
Fixpoint hex_value_from (acc : Z) (s : string) : Z :=
  match s with
  | EmptyString => acc
  | String c r =>
      hex_value_from (16 * acc + match hex_digit c with Some d => d | None => 0 end) r
  end.

Definition hex_value (s : string) : Z := hex_value_from 0 s.

(** What the statements need to know of the builtin [int]: in base 16 it
    reads a non-empty string of hexadecimal digits as the number they
    denote. *)
Definition int_reads_hex (int_ : string -> Z -> option Z) : Prop :=
  forall h, h <> "" -> all_chars is_hex h = true -> int_ h 16 = Some (hex_value h).

(** The canonical text of a UUID: groups of 8, 4, 4, 4 and 12 hexadecimal
    digits joined by hyphens. *)
Definition canonical_uuid (s : string) : Prop :=
  exists a b c d e,
    s = a +:+ "-" +:+ b +:+ "-" +:+ c +:+ "-" +:+ d +:+ "-" +:+ e /\
    (String.length a = 8 /\ String.length b = 4 /\ String.length c = 4 /\
     String.length d = 4 /\ String.length e = 12)%nat /\
    all_chars is_hex (a +:+ b +:+ c +:+ d +:+ e) = true.

(** A reader of plain hexadecimal digit strings, which satisfies
    [int_reads_hex]. *)
Definition int_hex (s : string) (base : Z) : option Z :=
  match s with
  | EmptyString => None
  | _ => if all_chars is_hex s then Some (hex_value s) else None
  end.

(** A table is keyed when no two of its rows answer the same lookup. *)
Definition Country_keyed (tbl : list Country) : Prop :=
  forall code, (length (List.filter (Country_matches code) tbl) <= 1)%nat.

Definition City_keyed (tbl : list City) : Prop :=
  forall name country,
    (length (List.filter (City_matches name country) tbl) <= 1)%nat.

(** The keywords of the [get_connection] call for a mailing list, and the
    resolved use-tls flag. *)
Definition connection_keywords (ml : MailingList) : gmap string value :=
  <["host" := py_or (smtp_host ml) (EMAIL_HOST global_settings)]>
  (<["port" := py_or (smtp_port ml) (EMAIL_PORT global_settings)]>
   (<["username" := py_or (smtp_username ml) (EMAIL_HOST_USER global_settings)]>
    (<["password" := py_or (smtp_password ml) (EMAIL_HOST_PASSWORD global_settings)]> ∅))).

Definition resolved_use_tls (ml : MailingList) : value :=
  py_or (smtp_use_tls ml) (EMAIL_USE_TLS global_settings).

(** Every override of the mailing list is empty or absent. *)
Definition all_unset (ml : MailingList) : Prop :=
  truthy (smtp_username ml) = false /\ truthy (smtp_password ml) = false /\
  truthy (smtp_host ml) = false /\ truthy (smtp_port ml) = false /\
  truthy (smtp_use_tls ml) = false /\ truthy (smtp_use_ssl ml) = false /\
  truthy (smtp_timeout ml) = false /\ truthy (smtp_ssl_keyfile ml) = false /\
  truthy (smtp_ssl_certfile ml) = false.

(** ** Sample inputs *)

Definition request_forwarded : HttpRequest :=
  {| META := <["HTTP_X_FORWARDED_FOR" := "1.2.3.4, 5.6.7.8"]>
              (<["REMOTE_ADDR" := "10.0.0.1"]> ∅) |}.

Definition request_direct : HttpRequest :=
  {| META := <["REMOTE_ADDR" := "9.9.9.9"]> ∅ |}.

(** A GeoIP database that knows two addresses, both in Australia. *)
Definition sample_geoip (ip : string) : result (gmap string value) :=
  if String.eqb ip "1.1.1.1" then
    Ok (<["country_code" := VStr "AU"]>
        (<["country_name" := VStr "Australia"]>
         (<["city" := VStr "Sydney"]> ∅)))
  else if String.eqb ip "1.0.0.1" then
    Ok (<["country_code" := VStr "AU"]>
        (<["country_name" := VStr "Commonwealth of Australia"]>
         (<["city" := VStr "Sydney"]> ∅)))
  else Raise AddressNotFoundError.

Definition empty_state : State := {| countries := []; cities := []; log := [] |}.

(** The tables once Australia is known, under its short name. *)
Definition australia_row : Country :=
  {| Country_pk := 1; Country_code := VStr "AU"; Country_name := VStr "Australia" |}.

Definition australia_state : State :=
  {| countries := [australia_row]; cities := []; log := [] |}.

(** A mailing list that overrides nothing. *)
Definition unset_mailing_list : MailingList :=
  {| smtp_username := VStr ""; smtp_password := VStr ""; smtp_host := VStr "";
     smtp_port := VNone; smtp_use_tls := VBool false; smtp_use_ssl := VBool false;
     smtp_timeout := VNone; smtp_ssl_keyfile := VStr "";
     smtp_ssl_certfile := VStr "" |}.

(** A mailing list that asks for implicit SSL with both files, and for
    STARTTLS as well. *)
Definition ssl_mailing_list : MailingList :=
  {| smtp_username := VStr "list"; smtp_password := VStr "pw";
     smtp_host := VStr "mail.example.org"; smtp_port := VInt 465;
     smtp_use_tls := VBool true; smtp_use_ssl := VBool true;
     smtp_timeout := VInt 30; smtp_ssl_keyfile := VStr "/etc/ssl/list.key";
     smtp_ssl_certfile := VStr "/etc/ssl/list.crt" |}.

(** The same, with the key file missing. *)
Definition half_ssl_mailing_list : MailingList :=
  {| smtp_username := VStr "list"; smtp_password := VStr "pw";
     smtp_host := VStr "mail.example.org"; smtp_port := VInt 465;
     smtp_use_tls := VBool true; smtp_use_ssl := VBool true;
     smtp_timeout := VInt 30; smtp_ssl_keyfile := VNone;
     smtp_ssl_certfile := VStr "/etc/ssl/list.crt" |}.

(** Project settings that configure a mail server of their own. *)
Definition site_settings : Settings :=
  {| EMAIL_HOST := VStr "smtp.example.com";
     EMAIL_PORT := VInt 587;
     EMAIL_HOST_USER := VStr "mailer";
     EMAIL_HOST_PASSWORD := VStr "secret";
     EMAIL_USE_TLS := VBool false;
     EMAIL_USE_SSL := VBool false;
     EMAIL_TIMEOUT := VNone;
     EMAIL_SSL_KEYFILE := VNone;
     EMAIL_SSL_CERTFILE := VNone |}.

(** ** get_absolute_url *)

(** The current site, reduced to the attribute the module reads. *)
Record Site : Type := { domain : string }.

Section AbsoluteUrl.

(** [settings.COLOSSUS_HTTPS_ONLY]. *)
Variable COLOSSUS_HTTPS_ONLY : value.

(** [get_current_site(request=None)]: the site, or the exception raised
    while looking it up. *)
Variable get_current_site : result Site.

(** [django.urls.reverse(urlname, kwargs=kwargs)]: the path of the named
    route, or the exception raised when no route matches. *)
Variable reverse : string -> option (gmap string value) -> result string.

Definition get_absolute_url (urlname : string) (kwargs : option (gmap string value))
  : result string :=
  let protocol := if truthy COLOSSUS_HTTPS_ONLY then "https" else "http" in
  match get_current_site with
  | Raise e => Raise e
  | Ok site =>
      match reverse urlname kwargs with
      | Raise e => Raise e
      | Ok path => Ok (protocol +:+ "://" +:+ domain site +:+ path)
      end
  end.

End AbsoluteUrl.

(** ** The admin modules *)

(** [admin.site.register(model)] of Django on a concrete model: a model
    that is already in the site's registry is refused, any other is added
    to it.  Models are named by application and class. *)
Definition register (model : string) (registry : gset string)
  : result unit * gset string :=
  if bool_decide (model ∈ registry)
  then (Raise (OtherError "AlreadyRegistered"), registry)
  else (Ok tt, {[model]} ∪ registry).

(** One statement after another at module level: an exception ends the
    import, and what was registered before it stays registered. *)
Definition and_then (r : result unit * gset string)
    (next : gset string -> result unit * gset string)
  : result unit * gset string :=
  match r with
  | (Ok _, registry) => next registry
  | (Raise e, registry) => (Raise e, registry)
  end.

(** colossus/apps/core/admin.py. *)
Definition core_admin (registry : gset string) : result unit * gset string :=
  and_then (register "core.Token" registry) (fun registry =>
  and_then (register "core.Option" registry) (fun registry =>
  and_then (register "core.Country" registry) (fun registry =>
  register "core.City" registry))).

(** colossus/apps/subscribers/admin.py; the registration of
    [SubscriberManager] is commented out there. *)
Definition subscribers_admin (registry : gset string) : result unit * gset string :=
  and_then (register "subscribers.Tag" registry) (fun registry =>
  and_then (register "subscribers.Domain" registry) (fun registry =>
  and_then (register "subscribers.Subscriber" registry) (fun registry =>
  and_then (register "subscribers.Activity" registry) (fun registry =>
  register "subscribers.SubscriptionFormTemplate" registry)))).

Definition core_models : gset string :=
  {[ "core.Token"; "core.Option"; "core.Country"; "core.City" ]}.

Definition subscribers_models : gset string :=
  {[ "subscribers.Tag"; "subscribers.Domain"; "subscribers.Subscriber";
     "subscribers.Activity"; "subscribers.SubscriptionFormTemplate" ]}.

(** ** Further notions and sample inputs *)

(** The number of hexadecimal digits in a string. *)
Fixpoint count_hex (s : string) : nat :=
  match s with
  | EmptyString => O
  | String c r => ((if is_hex c then 1 else 0) + count_hex r)%nat
  end.

(** A GeoIP database whose lookups fail for a reason of their own. *)
Definition broken_geoip (ip : string) : result (gmap string value) :=
  Raise (OtherError "GeoIP2Exception").

(** A GeoIP database that finds no country for the address it knows. *)
Definition countryless_geoip (ip : string) : result (gmap string value) :=
  if String.eqb ip "10.0.0.1" then
    Ok (<["country_code" := VNone]>
        (<["country_name" := VNone]>
         (<["city" := VStr "Springfield"]> ∅)))
  else Raise AddressNotFoundError.

(** Tables in which Australia was entered twice. *)
Definition duplicate_state : State :=
  {| countries := [australia_row;
                   {| Country_pk := 2; Country_code := VStr "AU";
                      Country_name := VStr "Australia (again)" |}];
     cities := []; log := [] |}.

Definition request_spoofed : HttpRequest :=
  {| META := <["HTTP_X_FORWARDED_FOR" := "1.2.3.4, 5.6.7.8"]>
              (<["REMOTE_ADDR" := "192.168.0.9"]> ∅) |}.

Definition request_padded : HttpRequest :=
  {| META := <["HTTP_X_FORWARDED_FOR" := " 1.2.3.4 "]> ∅ |}.

Definition request_leading_comma : HttpRequest :=
  {| META := <["HTTP_X_FORWARDED_FOR" := ",5.6.7.8"]> ∅ |}.

(** A mailing list that names its own server and asks for a timeout of
    zero and for no TLS. *)
Definition plain_mailing_list : MailingList :=
  {| smtp_username := VStr "list"; smtp_password := VStr "pw";
     smtp_host := VStr "mail.example.org"; smtp_port := VInt 2525;
     smtp_use_tls := VBool false; smtp_use_ssl := VBool false;
     smtp_timeout := VInt 0; smtp_ssl_keyfile := VStr "/etc/ssl/list.key";
     smtp_ssl_certfile := VStr "/etc/ssl/list.crt" |}.

(** Project settings that turn STARTTLS on and set a timeout. *)
Definition tls_settings : Settings :=
  {| EMAIL_HOST := VStr "smtp.example.com";
     EMAIL_PORT := VInt 587;
     EMAIL_HOST_USER := VStr "mailer";
     EMAIL_HOST_PASSWORD := VStr "secret";
     EMAIL_USE_TLS := VBool true;
     EMAIL_USE_SSL := VBool false;
     EMAIL_TIMEOUT := VInt 10;
     EMAIL_SSL_KEYFILE := VNone;
     EMAIL_SSL_CERTFILE := VNone |}.

Definition example_site : result Site := Ok {| domain := "lists.example.com" |}.

Definition example_reverse (urlname : string) (kwargs : option (gmap string value))
  : result string :=
  if String.eqb urlname "subscribers:unsubscribe" then Ok "/unsubscribe/42/"
  else Raise (OtherError "NoReverseMatch").

(** Project settings that select implicit SSL for every connection. *)
Definition ssl_site_settings : Settings :=
  {| EMAIL_HOST := VStr "smtp.example.com";
     EMAIL_PORT := VInt 465;
     EMAIL_HOST_USER := VStr "mailer";
     EMAIL_HOST_PASSWORD := VStr "secret";
     EMAIL_USE_TLS := VBool false;
     EMAIL_USE_SSL := VBool true;
     EMAIL_TIMEOUT := VNone;
     EMAIL_SSL_KEYFILE := VNone;
     EMAIL_SSL_CERTFILE := VNone |}.

(** A mailing list that asks for implicit SSL and gives the certificate
    file only; it does not ask for STARTTLS. *)
Definition cert_only_mailing_list : MailingList :=
  {| smtp_username := VStr "list"; smtp_password := VStr "pw";
     smtp_host := VStr "mail.example.org"; smtp_port := VInt 465;
     smtp_use_tls := VBool false; smtp_use_ssl := VBool true;
     smtp_timeout := VNone; smtp_ssl_keyfile := VNone;
     smtp_ssl_certfile := VStr "/etc/ssl/list.crt" |}.







(** * Properties *)

(** ** Client address *)

Lemma ascii_eqb_false_sym (a b : ascii) :
  Ascii.eqb a b = false -> Ascii.eqb b a = false.
Proof.
  intros H. apply Ascii.eqb_neq. apply Ascii.eqb_neq in H. congruence.
Qed.

(** The head of a split is the first entry of the string. *)
Lemma split_first (x : string) :
  exists ip t, Str.split "," x = ip :: t /\ first_entry x ip.
Proof.
  induction x as [|c r IH].
  - exists EmptyString, []. repeat split; auto.
  - cbn [Str.split]. destruct (Ascii.eqb c ",") eqn:Hc.
    + apply Ascii.eqb_eq in Hc. subst c.
      exists EmptyString, (Str.split "," r). repeat split; eauto.
    + destruct IH as (ip & t & Hs & Hmem & Hx). rewrite Hs.
      exists (String c ip), t. split; [reflexivity|]. split.
      * cbn [Str.mem]. rewrite (ascii_eqb_false_sym _ _ Hc), Hmem. reflexivity.
      * destruct Hx as [-> | [rest ->]]; [left; reflexivity|].
        right. exists rest. reflexivity.
Qed.

(** C8: get_client_ip returns the first comma-separated entry of the
    forwarded-for header when that header is present and non-empty, and
    otherwise the direct peer address; with forwarded-for
    1.2.3.4, 5.6.7.8 it returns 1.2.3.4, and with no forwarded-for header
    and peer address 9.9.9.9 it returns 9.9.9.9. *)
Theorem get_client_ip_forwarded_or_peer (request : HttpRequest) :
  (forall x, META request !! "HTTP_X_FORWARDED_FOR" = Some x -> x <> "" ->
     exists ip, get_client_ip request = Ok (Some ip) /\ first_entry x ip) /\
  (META request !! "HTTP_X_FORWARDED_FOR" = None \/
   META request !! "HTTP_X_FORWARDED_FOR" = Some "" ->
     get_client_ip request = Ok (META request !! "REMOTE_ADDR")) /\
  (META request !! "HTTP_X_FORWARDED_FOR" = Some "1.2.3.4, 5.6.7.8" ->
     get_client_ip request = Ok (Some "1.2.3.4")) /\
  (META request !! "HTTP_X_FORWARDED_FOR" = None ->
   META request !! "REMOTE_ADDR" = Some "9.9.9.9" ->
     get_client_ip request = Ok (Some "9.9.9.9")).
Proof.
  unfold get_client_ip. repeat split.
  - intros x Hx Hne. rewrite Hx.
    destruct (String.eqb x "") eqn:He.
    { apply String.eqb_eq in He. contradiction. }
    cbn [negb]. destruct (split_first x) as (ip & t & Hs & Hfirst).
    rewrite Hs. exists ip. split; [reflexivity | exact Hfirst].
  - intros [H | H]; rewrite H; reflexivity.
  - intros H. rewrite H. reflexivity.
  - intros H1 H2. rewrite H1, H2. reflexivity.
Qed.

Lemma get_client_ip_forwarded_or_peer_witness :
  get_client_ip request_forwarded = Ok (Some "1.2.3.4") /\
  get_client_ip request_direct = Ok (Some "9.9.9.9").
Proof.
  split.
  - apply (get_client_ip_forwarded_or_peer request_forwarded). reflexivity.
  - apply (get_client_ip_forwarded_or_peer request_direct); reflexivity.
Defined.

(** C10: the group argument of ip_address_key has no effect: for any
    two groups the result on a request is the same, and it is what
    get_client_ip returns for that request. *)
Theorem ip_address_key_ignores_group (g1 g2 : value) (request : HttpRequest) :
  ip_address_key g1 request = ip_address_key g2 request /\
  ip_address_key g1 request = get_client_ip request.
Proof. split; reflexivity. Qed.

(** ** Geo location *)

Lemma value_eqb_eq (a b : value) : value_eqb a b = true <-> a = b.
Proof.
  destruct a, b; cbn; split; intros H; try discriminate; try reflexivity.
  - apply Bool.eqb_prop in H. congruence.
  - injection H as ->. apply Bool.eqb_reflx.
  - apply Z.eqb_eq in H. congruence.
  - injection H as ->. apply Z.eqb_refl.
  - apply String.eqb_eq in H. congruence.
  - injection H as ->. apply String.eqb_refl.
Qed.

Lemma value_eqb_refl (a : value) : value_eqb a a = true.
Proof. apply value_eqb_eq. reflexivity. Qed.

(** [d.get(k)] and [d[k]] agree on a key that is present. *)
Lemma dict_item_get (d : gmap string value) (k : string) :
  dict_get d k <> VNone -> dict_item d k = Ok (dict_get d k).
Proof.
  unfold dict_get, dict_item. destruct (d !! k); [reflexivity | congruence].
Qed.

Lemma is_None_false (v : value) : is_None v = false <-> v <> VNone.
Proof. destruct v; cbn; split; congruence. Qed.

(** get_or_create only ever appends, and at most one row; when a row
    answers the lookup the table is left as it is. *)
Lemma Country_get_or_create_extends code name tbl r tbl' :
  Country_get_or_create code name tbl = (r, tbl') ->
  (exists new, tbl' = tbl ++ new /\ (length new <= 1)%nat) /\
  (List.filter (Country_matches code) tbl <> [] -> tbl' = tbl).
Proof.
  unfold Country_get_or_create.
  destruct (List.filter (Country_matches code) tbl) as [|x [|y l]];
    intros H; injection H as <- <-; split; try congruence.
  - eexists. split; [reflexivity | cbn; lia].
  - exists []. rewrite app_nil_r. split; [reflexivity | cbn; lia].
  - exists []. rewrite app_nil_r. split; [reflexivity | cbn; lia].
Qed.

Lemma City_get_or_create_extends name country tbl r tbl' :
  City_get_or_create name country tbl = (r, tbl') ->
  (exists new, tbl' = tbl ++ new /\ (length new <= 1)%nat) /\
  (List.filter (City_matches name country) tbl <> [] -> tbl' = tbl).
Proof.
  unfold City_get_or_create.
  destruct (List.filter (City_matches name country) tbl) as [|x [|y l]];
    intros H; injection H as <- <-; split; try congruence.
  - eexists. split; [reflexivity | cbn; lia].
  - exists []. rewrite app_nil_r. split; [reflexivity | cbn; lia].
  - exists []. rewrite app_nil_r. split; [reflexivity | cbn; lia].
Qed.

Lemma extends_refl {A} (l : list A) :
  exists new, l = l ++ new /\ (length new <= 1)%nat.
Proof. exists []. rewrite app_nil_r. split; [reflexivity | cbn; lia]. Qed.

(** A row that carries the code answers the lookup for it. *)
Lemma Country_filter_nonempty code row tbl :
  In row tbl -> Country_code row = code ->
  List.filter (Country_matches code) tbl <> [].
Proof.
  intros Hin Hcode Hnil.
  assert (In row (List.filter (Country_matches code) tbl)) as H.
  { apply filter_In. split; [exact Hin|]. unfold Country_matches.
    rewrite Hcode. apply value_eqb_refl. }
  rewrite Hnil in H. destruct H.
Qed.

(** The tables after a call, in every outcome: the old rows followed by at
    most one new row each, and the countries untouched when a row for the
    looked-up code was there. *)
Lemma get_location_tables geoip ip st :
  let st' := snd (get_location geoip ip st) in
  (exists new, countries st' = countries st ++ new /\ (length new <= 1)%nat) /\
  (exists new, cities st' = cities st ++ new /\ (length new <= 1)%nat) /\
  (forall geodata, geoip ip = Ok geodata ->
     List.filter (Country_matches (dict_get geodata "country_code")) (countries st) <> [] ->
     countries st' = countries st).
Proof.
  unfold get_location.
  destruct (geoip ip) as [geodata | e].
  2:{ destruct e; cbn; repeat split; auto using extends_refl; discriminate. }
  destruct (is_None (dict_get geodata "country_code")) eqn:Hnone; cbn [negb].
  { cbn. repeat split; auto using extends_refl. }
  apply is_None_false in Hnone. rewrite (dict_item_get _ _ Hnone).
  destruct (dict_item geodata "country_name") as [name | e].
  2:{ cbn. repeat split; auto using extends_refl. }
  destruct (Country_get_or_create _ name (countries st)) as [r tbl] eqn:Hc.
  apply Country_get_or_create_extends in Hc as [Hext Hsame].
  assert (forall g, Ok geodata = Ok g ->
            List.filter (Country_matches (dict_get g "country_code")) (countries st) <> [] ->
            tbl = countries st) as Hsame'.
  { intros g Hg. injection Hg as <-. exact Hsame. }
  destruct r as [[country created] | e].
  2:{ cbn. repeat split; auto using extends_refl. }
  destruct (is_None (dict_get geodata "city")) eqn:Hcity; cbn [negb].
  { cbn. repeat split; auto using extends_refl. }
  destruct (dict_item geodata "city") as [city_name | e].
  2:{ cbn. repeat split; auto using extends_refl. }
  cbn [cities].
  destruct (City_get_or_create city_name country (cities st)) as [r ctbl] eqn:Hci.
  apply City_get_or_create_extends in Hci as [Hcext _].
  destruct r as [[city created'] | e]; cbn; repeat split; auto.
Qed.

(** C5: when the GeoIP lookup raises the address-not-found condition,
    get_location logs one warning, returns None, leaves the Country and
    City tables as they were and raises nothing. *)
Theorem get_location_address_not_found
    (geoip : string -> result (gmap string value)) (ip : string) (st : State) :
  geoip ip = Raise AddressNotFoundError ->
  get_location geoip ip st =
    (Ok None,
     {| countries := countries st; cities := cities st;
        log := log st ++
               [{| levelname := "WARNING";
                   message := "Address not found for ip_address = "
                              +:+ dquote +:+ ip +:+ dquote |}] |}).
Proof. intros H. unfold get_location. rewrite H. reflexivity. Qed.

Lemma get_location_address_not_found_witness :
  fst (get_location sample_geoip "203.0.113.7" empty_state) = Ok None /\
  countries (snd (get_location sample_geoip "203.0.113.7" empty_state)) = [] /\
  cities (snd (get_location sample_geoip "203.0.113.7" empty_state)) = [] /\
  length (log (snd (get_location sample_geoip "203.0.113.7" empty_state))) = 1%nat.
Proof.
  rewrite (get_location_address_not_found sample_geoip "203.0.113.7" empty_state);
    [repeat split | reflexivity].
Defined.

(** C7: no call to get_location modifies or deletes an existing Country
    or City row: whatever the outcome, every row is still at its place
    with all its fields afterwards, and when a Country row already exists
    for the returned country code the Country table is left exactly as it
    was (the defaults are used only for a row that is inserted). *)
Theorem get_location_keeps_rows
    (geoip : string -> result (gmap string value)) (ip : string) (st : State) :
  let st' := snd (get_location geoip ip st) in
  (forall (i : nat) row, countries st !! i = Some row -> countries st' !! i = Some row) /\
  (forall (i : nat) row, cities st !! i = Some row -> cities st' !! i = Some row) /\
  (forall geodata row,
     geoip ip = Ok geodata -> In row (countries st) ->
     Country_code row = dict_get geodata "country_code" ->
     countries st' = countries st).
Proof.
  destruct (get_location_tables geoip ip st) as ((nc & Hc & _) & (nci & Hci & _) & Hsame).
  cbv zeta. repeat split.
  - intros i row Hrow. rewrite Hc. apply lookup_app_l_Some. exact Hrow.
  - intros i row Hrow. rewrite Hci. apply lookup_app_l_Some. exact Hrow.
  - intros geodata row Hgeo Hin Hcode. apply (Hsame geodata Hgeo).
    eapply Country_filter_nonempty; eauto.
Qed.

(** The two outcomes of get_or_create on a keyed table. *)
Lemma Country_get_or_create_keyed code name tbl :
  Country_keyed tbl ->
  exists country created tbl',
    Country_get_or_create code name tbl = (Ok (country, created), tbl') /\
    List.filter (Country_matches code) tbl' = [country] /\
    Country_keyed tbl' /\
    (List.filter (Country_matches code) tbl = [] ->
       tbl' = tbl ++ [country] /\ Country_name country = name /\ created = true) /\
    (List.filter (Country_matches code) tbl <> [] ->
       tbl' = tbl /\ created = false).
Proof.
  intros Hkey. unfold Country_get_or_create.
  pose proof (Hkey code) as Hlen.
  destruct (List.filter (Country_matches code) tbl) as [|x [|y l]] eqn:Hf.
  - eexists _, true, _. split; [reflexivity|].
    assert (Country_matches code
              {| Country_pk := next_pk (map Country_pk tbl);
                 Country_code := code; Country_name := name |} = true) as Hm.
    { unfold Country_matches. cbn. apply value_eqb_refl. }
    repeat split; try congruence.
    + rewrite List.filter_app, Hf. cbn. rewrite Hm. reflexivity.
    + intros code'. rewrite List.filter_app, length_app. cbn.
      destruct (Country_matches code' _) eqn:Hm'; cbn.
      * unfold Country_matches in Hm'. cbn in Hm'.
        apply value_eqb_eq in Hm'. subst code'. rewrite Hf. cbn. lia.
      * pose proof (Hkey code'). lia.
  - exists x, false, tbl. repeat split; auto; congruence.
  - cbn in Hlen. lia.
Qed.

Lemma City_matches_pk name c c' r :
  Country_pk c = Country_pk c' -> City_matches name c r = City_matches name c' r.
Proof. unfold City_matches. intros ->. reflexivity. Qed.

Lemma City_get_or_create_keyed name country tbl :
  City_keyed tbl ->
  exists city created tbl',
    City_get_or_create name country tbl = (Ok (city, created), tbl') /\
    List.filter (City_matches name country) tbl' = [city] /\
    City_keyed tbl' /\
    (List.filter (City_matches name country) tbl = [] ->
       tbl' = tbl ++ [city] /\ created = true) /\
    (List.filter (City_matches name country) tbl <> [] ->
       tbl' = tbl /\ created = false).
Proof.
  intros Hkey. unfold City_get_or_create.
  pose proof (Hkey name country) as Hlen.
  destruct (List.filter (City_matches name country) tbl) as [|x [|y l]] eqn:Hf.
  - eexists _, true, _. split; [reflexivity|].
    assert (City_matches name country
              {| City_pk := next_pk (map City_pk tbl);
                 City_name := name; City_country := Country_pk country |} = true) as Hm.
    { unfold City_matches. cbn. rewrite value_eqb_refl, Nat.eqb_refl. reflexivity. }
    repeat split; try congruence.
    + rewrite List.filter_app, Hf. cbn. rewrite Hm. reflexivity.
    + intros name' country'. rewrite List.filter_app, length_app. cbn.
      destruct (City_matches name' country' _) eqn:Hm'; cbn.
      * unfold City_matches in Hm'. cbn in Hm'.
        apply andb_true_iff in Hm' as [Hn Hp].
        apply value_eqb_eq in Hn. apply Nat.eqb_eq in Hp. subst name'.
        rewrite (List.filter_ext _ _ (fun r => City_matches_pk name _ _ r (eq_sym Hp))).
        rewrite Hf. cbn. lia.
      * pose proof (Hkey name' country'). lia.
  - exists x, false, tbl. repeat split; auto; congruence.
  - cbn in Hlen. lia.
Qed.

(** One call on keyed tables for an address the lookup resolves: it
    returns, the country row for the code is then the only one, and the
    city row, when the lookup names a city, likewise. *)
Lemma get_location_found geoip ip geodata code name st :
  geoip ip = Ok geodata ->
  geodata !! "country_code" = Some code -> code <> VNone ->
  geodata !! "country_name" = Some name ->
  Country_keyed (countries st) -> City_keyed (cities st) ->
  exists r st' country created,
    get_location geoip ip st = (Ok r, st') /\
    Country_get_or_create code name (countries st) = (Ok (country, created), countries st') /\
    List.filter (Country_matches code) (countries st') = [country] /\
    Country_keyed (countries st') /\ City_keyed (cities st') /\
    (dict_get geodata "city" = VNone -> r = None /\ cities st' = cities st) /\
    (dict_get geodata "city" <> VNone ->
       exists city created',
         r = Some city /\
         City_get_or_create (dict_get geodata "city") country (cities st)
           = (Ok (city, created'), cities st') /\
         List.filter (City_matches (dict_get geodata "city") country) (cities st') = [city]).
Proof.
  intros Hgeo Hcode Hnn Hname Hck Hcik.
  unfold get_location. rewrite Hgeo.
  assert (dict_get geodata "country_code" = code) as Hget.
  { unfold dict_get. rewrite Hcode. reflexivity. }
  rewrite Hget. apply is_None_false in Hnn. rewrite Hnn. cbn [negb].
  unfold dict_item at 1 2. rewrite Hcode, Hname.
  destruct (Country_get_or_create_keyed code name (countries st) Hck)
    as (country & created & tbl & Hgoc & Hfil & Hck' & _).
  rewrite Hgoc.
  destruct (is_None (dict_get geodata "city")) eqn:Hcity; cbn [negb].
  - exists None. eexists. exists country, created.
    split; [reflexivity|]. cbn. repeat split; auto.
    intros Hne. destruct (dict_get geodata "city"); cbn in Hcity; congruence.
  - apply is_None_false in Hcity. rewrite (dict_item_get _ _ Hcity). cbn [cities].
    destruct (City_get_or_create_keyed (dict_get geodata "city") country (cities st) Hcik)
      as (city & created' & ctbl & Hcgoc & Hcfil & Hcik' & _).
    rewrite Hcgoc. exists (Some city). eexists. exists country, created.
    split; [reflexivity|]. cbn. repeat split; auto; try congruence.
    exists city, created'. auto.
Qed.

Lemma Country_get_or_create_facts code name tbl country created tbl' :
  Country_keyed tbl ->
  Country_get_or_create code name tbl = (Ok (country, created), tbl') ->
  List.filter (Country_matches code) tbl' = [country] /\
  (List.filter (Country_matches code) tbl = [] ->
     tbl' = tbl ++ [country] /\ Country_name country = name) /\
  (List.filter (Country_matches code) tbl <> [] -> tbl' = tbl).
Proof.
  intros Hkey Hgoc.
  destruct (Country_get_or_create_keyed code name tbl Hkey)
    as (c0 & cr0 & t0 & Heq & Hfil & _ & Habs & Hpres).
  rewrite Hgoc in Heq. injection Heq as <- <- <-.
  repeat split; auto; try apply Habs; try apply Hpres; auto.
Qed.

Lemma City_get_or_create_facts name country tbl city created tbl' :
  City_keyed tbl ->
  City_get_or_create name country tbl = (Ok (city, created), tbl') ->
  List.filter (City_matches name country) tbl' = [city] /\
  (List.filter (City_matches name country) tbl = [] -> tbl' = tbl ++ [city]) /\
  (List.filter (City_matches name country) tbl <> [] -> tbl' = tbl).
Proof.
  intros Hkey Hgoc.
  destruct (City_get_or_create_keyed name country tbl Hkey)
    as (c0 & cr0 & t0 & Heq & Hfil & _ & Habs & Hpres).
  rewrite Hgoc in Heq. injection Heq as <- <- <-.
  repeat split; auto; try apply Habs; try apply Hpres; auto.
Qed.

(** C6: two get_location calls whose lookups resolve to the same country
    code, on keyed tables: both return, exactly one Country row for the
    code exists afterwards, the first call having created it (with the
    name it was given) if it was absent and the second having reused it
    and added nothing; and when both lookups name the same city, the same
    holds for the City row of that name and country, which both calls
    return. *)
Theorem get_location_get_or_create_once
    (geoip : string -> result (gmap string value)) (ip1 ip2 : string)
    (g1 g2 : gmap string value) (code n1 n2 : value) (st : State) :
  geoip ip1 = Ok g1 -> geoip ip2 = Ok g2 ->
  g1 !! "country_code" = Some code -> g2 !! "country_code" = Some code ->
  code <> VNone ->
  g1 !! "country_name" = Some n1 -> g2 !! "country_name" = Some n2 ->
  Country_keyed (countries st) -> City_keyed (cities st) ->
  exists r1 st1 r2 st2 country,
    get_location geoip ip1 st = (Ok r1, st1) /\
    get_location geoip ip2 st1 = (Ok r2, st2) /\
    List.filter (Country_matches code) (countries st2) = [country] /\
    countries st2 = countries st1 /\
    (List.filter (Country_matches code) (countries st) = [] ->
       countries st1 = countries st ++ [country] /\ Country_name country = n1) /\
    (List.filter (Country_matches code) (countries st) <> [] ->
       countries st1 = countries st) /\
    (dict_get g1 "city" <> VNone -> dict_get g2 "city" = dict_get g1 "city" ->
       exists city,
         r1 = Some city /\ r2 = Some city /\
         List.filter (City_matches (dict_get g1 "city") country) (cities st2) = [city] /\
         cities st2 = cities st1 /\
         (List.filter (City_matches (dict_get g1 "city") country) (cities st) = [] ->
            cities st1 = cities st ++ [city]) /\
         (List.filter (City_matches (dict_get g1 "city") country) (cities st) <> [] ->
            cities st1 = cities st)).
Proof.
  intros Hg1 Hg2 Hc1 Hc2 Hnn Hn1 Hn2 Hck Hcik.
  destruct (get_location_found geoip ip1 g1 code n1 st Hg1 Hc1 Hnn Hn1 Hck Hcik)
    as (r1 & st1 & country & cr1 & Hcall1 & Hgoc1 & Hfil1 & Hck1 & Hcik1 & _ & Hcity1).
  destruct (get_location_found geoip ip2 g2 code n2 st1 Hg2 Hc2 Hnn Hn2 Hck1 Hcik1)
    as (r2 & st2 & country2 & cr2 & Hcall2 & Hgoc2 & Hfil2 & _ & _ & _ & Hcity2).
  destruct (Country_get_or_create_facts _ _ _ _ _ _ Hck Hgoc1) as (_ & Habs1 & Hpres1).
  destruct (Country_get_or_create_facts _ _ _ _ _ _ Hck1 Hgoc2) as (_ & _ & Hpres2).
  assert (countries st2 = countries st1) as Hsame.
  { apply Hpres2. rewrite Hfil1. discriminate. }
  assert (country2 = country) as ->.
  { rewrite Hsame, Hfil1 in Hfil2. congruence. }
  exists r1, st1, r2, st2, country. repeat split; auto; try apply Habs1; auto.
  intros Hcity Hsamecity.
  destruct (Hcity1 Hcity) as (city & ccr1 & -> & Hcgoc1 & Hcfil1).
  rewrite <- Hsamecity in Hcity.
  destruct (Hcity2 Hcity) as (city2 & ccr2 & -> & Hcgoc2 & Hcfil2).
  rewrite Hsamecity in Hcgoc2, Hcfil2.
  destruct (City_get_or_create_facts _ _ _ _ _ _ Hcik Hcgoc1) as (_ & Hcabs1 & Hcpres1).
  destruct (City_get_or_create_facts _ _ _ _ _ _ Hcik1 Hcgoc2) as (_ & _ & Hcpres2).
  assert (cities st2 = cities st1) as Hcsame.
  { apply Hcpres2. rewrite Hcfil1. discriminate. }
  assert (city2 = city) as ->.
  { rewrite Hcsame, Hcfil1 in Hcfil2. congruence. }
  exists city. repeat split; auto.
Qed.

Lemma get_location_get_or_create_once_witness :
  exists r1 st1 r2 st2 country,
    get_location sample_geoip "1.1.1.1" empty_state = (Ok r1, st1) /\
    get_location sample_geoip "1.0.0.1" st1 = (Ok r2, st2) /\
    List.filter (Country_matches (VStr "AU")) (countries st2) = [country] /\
    countries st2 = countries st1 /\
    Country_name country = VStr "Australia" /\
    r1 = r2.
Proof.
  destruct (get_location_get_or_create_once sample_geoip "1.1.1.1" "1.0.0.1"
              (<["country_code" := VStr "AU"]>
               (<["country_name" := VStr "Australia"]>
                (<["city" := VStr "Sydney"]> ∅)))
              (<["country_code" := VStr "AU"]>
               (<["country_name" := VStr "Commonwealth of Australia"]>
                (<["city" := VStr "Sydney"]> ∅)))
              (VStr "AU") (VStr "Australia") (VStr "Commonwealth of Australia")
              empty_state)
    as (r1 & st1 & r2 & st2 & country & H1 & H2 & Hf & Hs & Habs & _ & Hcity);
    try reflexivity; try discriminate.
  - intros code. cbn. lia.
  - intros name country. cbn. lia.
  - exists r1, st1, r2, st2, country. repeat split; auto.
    + apply Habs. reflexivity.
    + destruct Hcity as (city & -> & -> & _); [discriminate | reflexivity | reflexivity].
Defined.

Lemma get_location_keeps_rows_witness :
  countries (snd (get_location sample_geoip "1.0.0.1" australia_state))
  = [australia_row].
Proof.
  apply (get_location_keeps_rows sample_geoip "1.0.0.1" australia_state)
    with (geodata := <["country_code" := VStr "AU"]>
                     (<["country_name" := VStr "Commonwealth of Australia"]>
                      (<["city" := VStr "Sydney"]> ∅)))
         (row := australia_row).
  - reflexivity.
  - left. reflexivity.
  - reflexivity.
Defined.

(** ** UUID check *)

Lemma append_cons (c : ascii) (a b : string) :
  String c a +:+ b = String c (a +:+ b).
Proof. reflexivity. Qed.

Lemma append_nil_l (a : string) : "" +:+ a = a.
Proof. reflexivity. Qed.

Lemma string_length_append (a b : string) :
  String.length (a +:+ b) = (String.length a + String.length b)%nat.
Proof.
  induction a as [|c a IH]; [reflexivity|].
  change (S (String.length (a +:+ b)) = S (String.length a + String.length b)).
  f_equal. exact IH.
Qed.

Lemma all_chars_append p (a b : string) :
  all_chars p (a +:+ b) = all_chars p a && all_chars p b.
Proof.
  induction a as [|c a IH]; [reflexivity|].
  rewrite append_cons. cbn. rewrite IH. apply andb_assoc.
Qed.

Lemma all_chars_impl (p q : ascii -> bool) (s : string) :
  (forall c, p c = true -> q c = true) ->
  all_chars p s = true -> all_chars q s = true.
Proof.
  intros Hpq. induction s as [|c s IH]; cbn; [reflexivity|].
  intros H. apply andb_true_iff in H as [Hc Hs].
  rewrite (Hpq c Hc), (IH Hs). reflexivity.
Qed.

Lemma all_chars_not_mem p (c : ascii) (s : string) :
  all_chars p s = true -> p c = false -> Str.mem c s = false.
Proof.
  intros Hs Hc. induction s as [|d s IH]; cbn in *; [reflexivity|].
  apply andb_true_iff in Hs as [Hd Hs]. rewrite (IH Hs), orb_false_r.
  apply Ascii.eqb_neq. intros ->. congruence.
Qed.

Lemma prefix_empty (s : string) : String.prefix "" s = true.
Proof. destruct s; reflexivity. Qed.

(** Replacing a pattern whose first character does not occur changes
    nothing. *)
Lemma replace_from_absent (c : ascii) (old new s : string) :
  Str.mem c s = false -> Str.replace_from (String c old) new O s = s.
Proof.
  induction s as [|d s IH]; cbn [Str.replace_from Str.mem]; [reflexivity|].
  intros H. apply orb_false_iff in H as [Hd Hs].
  cbn [String.prefix]. destruct (ascii_dec c d) as [-> | Hne].
  - rewrite Ascii.eqb_refl in Hd. discriminate.
  - rewrite (IH Hs). reflexivity.
Qed.

(** Replacing the hyphen by nothing goes through each part of a
    concatenation. *)
Lemma remove_hyphen_append (x y : string) :
  Str.replace_from "-" "" O (x +:+ y)
  = Str.replace_from "-" "" O x +:+ Str.replace_from "-" "" O y.
Proof.
  induction x as [|c x IH]; [reflexivity|].
  change (String c x +:+ y) with (String c (x +:+ y)).
  cbn [Str.replace_from String.prefix String.length Nat.pred].
  destruct (ascii_dec "-" c); rewrite ?prefix_empty, IH; reflexivity.
Qed.

Lemma strip_none (chars s : string) :
  all_chars (fun c => negb (Str.mem c chars)) s = true -> Str.strip chars s = s.
Proof.
  intros H. unfold Str.strip.
  assert (Str.lstrip chars s = s) as ->.
  { destruct s as [|c s]; [reflexivity|]. cbn in *.
    apply andb_true_iff in H as [Hc _]. apply negb_true_iff in Hc.
    rewrite Hc. reflexivity. }
  induction s as [|c s IH]; [reflexivity|]. cbn in *.
  apply andb_true_iff in H as [Hc Hs]. apply negb_true_iff in Hc.
  rewrite (IH Hs), Hc. destruct s; reflexivity.
Qed.

Lemma hex_digit_range (c : ascii) (d : Z) : hex_digit c = Some d -> 0 <= d <= 15.
Proof.
  unfold hex_digit.
  repeat match goal with
         | |- context [if ?b then _ else _] => destruct b eqn:?
         end; intros H; inversion H; subst; lia.
Qed.

Lemma hex_value_from_bound (s : string) (acc : Z) (n : nat) :
  all_chars is_hex s = true -> 0 <= acc < 16 ^ Z.of_nat n ->
  0 <= hex_value_from acc s < 16 ^ Z.of_nat (n + String.length s).
Proof.
  revert acc n. induction s as [|c s IH]; intros acc n Hs Hacc.
  - cbn. rewrite Nat.add_0_r. exact Hacc.
  - cbn in *. apply andb_true_iff in Hs as [Hc Hs]. unfold is_hex in Hc.
    destruct (hex_digit c) as [d|] eqn:Hd; [|discriminate].
    apply hex_digit_range in Hd.
    replace (n + S (String.length s))%nat with (S n + String.length s)%nat by lia.
    apply IH; [exact Hs|].
    rewrite Nat2Z.inj_succ, Z.pow_succ_r by lia. lia.
Qed.

Lemma hex_value_bound (s : string) :
  all_chars is_hex s = true -> 0 <= hex_value s < 16 ^ Z.of_nat (String.length s).
Proof.
  intros H. apply (hex_value_from_bound s 0 0 H). cbn. lia.
Qed.

(** The characters of a canonical UUID: digits and hyphens. *)
Lemma uuid_char_not_brace (c : ascii) :
  is_hex c || Ascii.eqb c "-" = true -> negb (Str.mem c "{}") = true.
Proof.
  intros H. apply negb_true_iff. cbn [Str.mem].
  destruct (Ascii.eqb c "{") eqn:H1.
  { apply Ascii.eqb_eq in H1. subst c. discriminate H. }
  destruct (Ascii.eqb c "}") eqn:H2.
  { apply Ascii.eqb_eq in H2. subst c. discriminate H. }
  reflexivity.
Qed.

(** The library's parser accepts every canonical UUID text. *)
Lemma UUID_canonical (int_ : string -> Z -> option Z) (s : string) :
  int_reads_hex int_ -> canonical_uuid s -> exists u, UUID int_ (VStr s) = Ok u.
Proof.
  intros Hint (a & b & c & d & e & -> & (La & Lb & Lc & Ld & Le) & Hhex).
  set (s := a +:+ "-" +:+ b +:+ "-" +:+ c +:+ "-" +:+ d +:+ "-" +:+ e).
  pose proof Hhex as Hparts. rewrite !all_chars_append in Hparts.
  repeat match goal with
         | H : _ && _ = true |- _ => apply andb_true_iff in H as [? ?]
         end.
  assert (all_chars (fun c => is_hex c || Ascii.eqb c "-") s = true) as Hchars.
  { unfold s. rewrite !all_chars_append.
    repeat (apply andb_true_iff; split); try reflexivity;
      eapply all_chars_impl; try eassumption;
      intros ch Hch; rewrite Hch; reflexivity. }
  assert (Str.mem "u" s = false) as Hu.
  { eapply all_chars_not_mem; [exact Hchars | reflexivity]. }
  assert (Str.replace_from "-" "" O s = a +:+ b +:+ c +:+ d +:+ e) as Hplain.
  { unfold s. rewrite !remove_hyphen_append.
    change (Str.replace_from "-" "" 0 "-") with "".
    rewrite !append_nil_l.
    rewrite !(replace_from_absent "-" "" "") by
      (eapply all_chars_not_mem; [eassumption | reflexivity]).
    reflexivity. }
  unfold UUID, Str.replace.
  rewrite (replace_from_absent "u" "rn:" "" s Hu).
  rewrite (replace_from_absent "u" "uid:" "" s Hu).
  rewrite (strip_none "{}" s)
    by (eapply all_chars_impl; [apply uuid_char_not_brace | exact Hchars]).
  rewrite Hplain.
  assert (String.length (a +:+ b +:+ c +:+ d +:+ e) = 32%nat) as Hlen.
  { rewrite !string_length_append. lia. }
  rewrite Hlen. cbn [Nat.eqb negb].
  rewrite (Hint _ ltac:(intros Hnil; rewrite Hnil in Hlen; discriminate) Hhex).
  pose proof (hex_value_bound _ Hhex) as Hb. rewrite Hlen in Hb.
  change (16 ^ Z.of_nat 32) with (Z.shiftl 1 128) in Hb.
  destruct Hb as [Hb1 Hb2].
  apply Z.leb_le in Hb1. apply Z.ltb_lt in Hb2. rewrite Hb1, Hb2.
  eexists. reflexivity.
Qed.


Lemma int_hex_reads_hex : int_reads_hex int_hex.
Proof.
  intros h Hne Hhex. unfold int_hex. rewrite Hhex.
  destruct h; [contradiction | reflexivity].
Qed.


(** ** Campaign connection *)

Section ConnectionProperties.

Variable get_connection : gmap string value -> result Connection.

(** With a campaign object the function is the factory call followed by
    the three conditional updates. *)
Lemma get_campaign_connection_campaign (c : Campaign) :
  get_campaign_connection get_connection (Obj c) =
    let ml := mailing_list c in
    match get_connection (connection_keywords ml) with
    | Raise e => Raise e
    | Ok connection =>
        let connection :=
          if truthy (resolved_use_tls ml)
          then set_use_tls (resolved_use_tls ml) connection else connection in
        let connection :=
          if truthy (smtp_timeout ml)
          then set_timeout (smtp_timeout ml) connection else connection in
        Ok (if truthy (smtp_use_ssl ml) && truthy (smtp_ssl_certfile ml)
               && truthy (smtp_ssl_keyfile ml)
            then set_ssl_certfile (smtp_ssl_certfile ml)
                   (set_ssl_keyfile (smtp_ssl_keyfile ml)
                      (set_use_ssl (smtp_use_ssl ml) connection))
            else connection)
    end.
Proof. reflexivity. Qed.

Lemma py_or_falsy (a b : value) : truthy a = false -> py_or a b = b.
Proof. unfold py_or. intros ->. reflexivity. Qed.

(** A campaign that overrides nothing gets the factory's connection for
    Django's built-in host, port, user name and password, with no
    attribute set afterwards. *)
Lemma unset_campaign_uses_builtin_defaults (c : Campaign) :
  all_unset (mailing_list c) ->
  get_campaign_connection get_connection (Obj c) =
    get_connection
      (<["host" := VStr "localhost"]>
       (<["port" := VInt 25]>
        (<["username" := VStr ""]>
         (<["password" := VStr ""]> ∅)))).
Proof.
  intros (Hu & Hp & Hh & Hport & Htls & Hssl & Hto & Hkey & Hcert).
  rewrite get_campaign_connection_campaign. cbv zeta.
  unfold connection_keywords, resolved_use_tls.
  rewrite !py_or_falsy by assumption. cbn [global_settings EMAIL_HOST EMAIL_PORT
    EMAIL_HOST_USER EMAIL_HOST_PASSWORD EMAIL_USE_TLS truthy].
  rewrite Hto, Hssl. cbn [andb].
  destruct (get_connection _); reflexivity.
Qed.

End ConnectionProperties.

(** When the project leaves Django's mail defaults in place, a campaign
    that overrides nothing gets the default connection. *)
Lemma unset_campaign_default_under_builtin_settings (c : Campaign) :
  all_unset (mailing_list c) ->
  get_campaign_connection (EmailBackend global_settings) (Obj c) =
  get_campaign_connection (EmailBackend global_settings) (Plain VNone).
Proof.
  intros H. rewrite (unset_campaign_uses_builtin_defaults _ c H). reflexivity.
Qed.

(** C1: a campaign whose override fields are all empty should get the
    descriptor that get_campaign_connection(None) returns.  Evaluated with
    Django's SMTP backend under project settings that name a mail server
    of their own, the code returns the descriptor of Django's built-in
    defaults (localhost, port 25, no credentials) for such a campaign and
    the project's descriptor for None: the two differ. *)
Theorem unset_campaign_not_default :
  all_unset unset_mailing_list /\
  get_campaign_connection (EmailBackend site_settings)
    (Obj {| mailing_list := unset_mailing_list |}) =
    Ok {| host := VStr "localhost"; port := VInt 25; username := VStr "";
          password := VStr ""; use_tls := VBool false; use_ssl := VBool false;
          timeout := VNone; ssl_keyfile := VNone; ssl_certfile := VNone |} /\
  get_campaign_connection (EmailBackend site_settings) (Plain VNone) =
    Ok {| host := VStr "smtp.example.com"; port := VInt 587;
          username := VStr "mailer"; password := VStr "secret";
          use_tls := VBool false; use_ssl := VBool false;
          timeout := VNone; ssl_keyfile := VNone; ssl_certfile := VNone |} /\
  get_campaign_connection (EmailBackend site_settings)
    (Obj {| mailing_list := unset_mailing_list |}) <>
  get_campaign_connection (EmailBackend site_settings) (Plain VNone).
Proof.
  split; [repeat split|]. split; [reflexivity|]. split; [reflexivity|].
  discriminate.
Qed.

(** C4: called with no campaign, that is with None or any other falsy
    value, get_campaign_connection returns what the mail-connection
    factory returns when it is given no keyword at all, unchanged. *)
Theorem get_campaign_connection_no_campaign
    (get_connection : gmap string value -> result Connection) (campaign : argument) :
  argument_truthy campaign = false ->
  get_campaign_connection get_connection campaign = get_connection ∅.
Proof.
  intros H. unfold get_campaign_connection. rewrite H. reflexivity.
Qed.

Lemma get_campaign_connection_no_campaign_witness :
  get_campaign_connection (EmailBackend site_settings) (Plain VNone) =
    EmailBackend site_settings ∅ /\
  get_campaign_connection (EmailBackend site_settings) (Plain (VStr "")) =
    EmailBackend site_settings ∅.
Proof.
  split.
  - apply (get_campaign_connection_no_campaign (EmailBackend site_settings) (Plain VNone)).
    reflexivity.
  - apply (get_campaign_connection_no_campaign (EmailBackend site_settings)
             (Plain (VStr ""))).
    reflexivity.
Defined.

(** C2: for a campaign whose mailing list has use-ssl truthy and both
    the certificate file and the key file present, the returned
    descriptor has use_ssl set and both file paths attached, whatever the
    use-tls flag; and when the resolved use-tls flag is truthy, use_tls is
    set on the same descriptor as well. *)
Theorem ssl_selected_with_both_files
    (get_connection : gmap string value -> result Connection)
    (c : Campaign) (base : Connection) :
  let ml := mailing_list c in
  get_connection (connection_keywords ml) = Ok base ->
  truthy (smtp_use_ssl ml) = true ->
  truthy (smtp_ssl_certfile ml) = true ->
  truthy (smtp_ssl_keyfile ml) = true ->
  exists connection,
    get_campaign_connection get_connection (Obj c) = Ok connection /\
    use_ssl connection = smtp_use_ssl ml /\
    ssl_keyfile connection = smtp_ssl_keyfile ml /\
    ssl_certfile connection = smtp_ssl_certfile ml /\
    (truthy (resolved_use_tls ml) = true ->
       use_tls connection = resolved_use_tls ml /\
       truthy (use_tls connection) = true /\ truthy (use_ssl connection) = true) /\
    (truthy (resolved_use_tls ml) = false -> use_tls connection = use_tls base).
Proof.
  intros ml Hbase Hssl Hcert Hkey.
  rewrite get_campaign_connection_campaign. fold ml. cbv zeta.
  rewrite Hbase, Hssl, Hcert, Hkey. cbn [andb].
  eexists. split; [reflexivity|].
  destruct (truthy (resolved_use_tls ml)) eqn:Htls,
           (truthy (smtp_timeout ml)); cbn;
    repeat split; auto; discriminate.
Qed.

Lemma ssl_selected_with_both_files_witness :
  exists connection,
    get_campaign_connection (EmailBackend site_settings)
      (Obj {| mailing_list := ssl_mailing_list |}) = Ok connection /\
    use_ssl connection = VBool true /\
    ssl_keyfile connection = VStr "/etc/ssl/list.key" /\
    ssl_certfile connection = VStr "/etc/ssl/list.crt" /\
    use_tls connection = VBool true.
Proof.
  destruct (ssl_selected_with_both_files (EmailBackend site_settings)
              {| mailing_list := ssl_mailing_list |}
              {| host := VStr "mail.example.org"; port := VInt 465;
                 username := VStr "list"; password := VStr "pw";
                 use_tls := VBool false; use_ssl := VBool false;
                 timeout := VNone; ssl_keyfile := VNone; ssl_certfile := VNone |})
    as (connection & Hret & Hs & Hk & Hc & Htls & _); try reflexivity.
  exists connection. repeat split; auto. apply Htls. reflexivity.
Defined.

(** C3 (as amended): get_campaign_connection itself selects implicit SSL
    only when both files are present: for a campaign whose certificate
    file or key file is missing, whatever its use-ssl flag, the call sets
    none of use_ssl, ssl_keyfile and ssl_certfile, which are on the
    returned descriptor exactly as the factory made them, so that the
    descriptor is in implicit-SSL mode only if the factory's was; and when
    the campaign's use-tls flag is truthy the descriptor is marked
    STARTTLS with that flag. *)
Theorem ssl_needs_both_files
    (get_connection : gmap string value -> result Connection)
    (c : Campaign) (base : Connection) :
  let ml := mailing_list c in
  get_connection (connection_keywords ml) = Ok base ->
  truthy (smtp_ssl_certfile ml) && truthy (smtp_ssl_keyfile ml) = false ->
  exists connection,
    get_campaign_connection get_connection (Obj c) = Ok connection /\
    use_ssl connection = use_ssl base /\
    ssl_keyfile connection = ssl_keyfile base /\
    ssl_certfile connection = ssl_certfile base /\
    (truthy (use_ssl base) = false -> truthy (use_ssl connection) = false) /\
    (truthy (smtp_use_tls ml) = true ->
       use_tls connection = smtp_use_tls ml /\
       truthy (use_tls connection) = true).
Proof.
  intros ml Hbase Hfiles. subst ml.
  rewrite get_campaign_connection_campaign. cbv zeta.
  rewrite Hbase, <- andb_assoc, Hfiles, andb_false_r.
  eexists. split; [reflexivity|].
  unfold resolved_use_tls, py_or.
  destruct (truthy (smtp_use_tls (mailing_list c))) eqn:Htls,
           (truthy (smtp_timeout (mailing_list c))); cbn;
    rewrite ?Htls; cbn; repeat split; auto; discriminate.
Qed.

Lemma ssl_needs_both_files_witness :
  exists connection,
    get_campaign_connection (EmailBackend site_settings)
      (Obj {| mailing_list := half_ssl_mailing_list |}) = Ok connection /\
    use_ssl connection = VBool false /\
    ssl_keyfile connection = VNone /\
    ssl_certfile connection = VNone /\
    truthy (use_ssl connection) = false /\
    use_tls connection = VBool true.
Proof.
  destruct (ssl_needs_both_files (EmailBackend site_settings)
              {| mailing_list := half_ssl_mailing_list |}
              {| host := VStr "mail.example.org"; port := VInt 465;
                 username := VStr "list"; password := VStr "pw";
                 use_tls := VBool false; use_ssl := VBool false;
                 timeout := VNone; ssl_keyfile := VNone; ssl_certfile := VNone |})
    as (connection & Hret & Hs & Hk & Hc & Hmode & Htls); try reflexivity.
  exists connection. repeat split; auto. apply Htls. reflexivity.
Defined.

(** C3 as first stated fails: it speaks of the mode of the returned
    descriptor, and the function never clears what the factory selected.
    Under project settings that select implicit SSL, a campaign with
    use-ssl truthy and the certificate file only gets a descriptor in
    implicit-SSL mode although its key file is missing. *)
Lemma ssl_selected_without_key_file :
  exists connection,
    get_campaign_connection (EmailBackend ssl_site_settings)
      (Obj {| mailing_list := cert_only_mailing_list |}) = Ok connection /\
    truthy (smtp_use_ssl cert_only_mailing_list) = true /\
    truthy (smtp_ssl_certfile cert_only_mailing_list) = true /\
    truthy (smtp_ssl_keyfile cert_only_mailing_list) = false /\
    truthy (use_ssl connection) = true /\
    ssl_keyfile connection = VNone /\
    ssl_certfile connection = VNone.
Proof. eexists. repeat split; reflexivity. Qed.

(** * Further properties *)

(** ** Client address: precedence and edge cases *)

Lemma split_no_separator (x : string) :
  Str.mem "," x = false -> Str.split "," x = [x].
Proof.
  induction x as [|c r IH]; [reflexivity|].
  cbn [Str.mem Str.split]. intros H. apply orb_false_iff in H as [Hc Hr].
  rewrite (ascii_eqb_false_sym _ _ Hc), (IH Hr). reflexivity.
Qed.

(** X1: a non-empty forwarded-for header alone decides the result: two
    requests that carry the same one get the same address, which is a
    string and not None, whatever their peer addresses or other headers;
    no exception is raised. *)
Theorem get_client_ip_forwarded_header_decides
    (request1 request2 : HttpRequest) (x : string) :
  META request1 !! "HTTP_X_FORWARDED_FOR" = Some x ->
  META request2 !! "HTTP_X_FORWARDED_FOR" = Some x ->
  x <> "" ->
  get_client_ip request1 = get_client_ip request2 /\
  exists ip, get_client_ip request1 = Ok (Some ip).
Proof.
  intros H1 H2 Hne. unfold get_client_ip. rewrite H1, H2.
  destruct (String.eqb x "") eqn:He.
  { apply String.eqb_eq in He. contradiction. }
  cbn [negb]. split; [reflexivity|].
  destruct (split_first x) as (ip & t & Hs & _). rewrite Hs.
  exists ip. reflexivity.
Qed.

Lemma get_client_ip_forwarded_header_decides_witness :
  get_client_ip request_forwarded = get_client_ip request_spoofed /\
  exists ip, get_client_ip request_forwarded = Ok (Some ip).
Proof.
  apply (get_client_ip_forwarded_header_decides request_forwarded request_spoofed
           "1.2.3.4, 5.6.7.8"); [reflexivity | reflexivity | discriminate].
Defined.

(** X2: the entry is returned as it stands, without trimming or
    validation: a header without a comma is returned whole, surrounding
    spaces included, and a header that begins with a comma yields the
    empty string. *)
Theorem get_client_ip_returns_entry_verbatim (request : HttpRequest) (x : string) :
  META request !! "HTTP_X_FORWARDED_FOR" = Some x ->
  x <> "" ->
  (Str.mem "," x = false -> get_client_ip request = Ok (Some x)) /\
  (forall rest, x = String "," rest -> get_client_ip request = Ok (Some "")).
Proof.
  intros Hx Hne. unfold get_client_ip. rewrite Hx.
  destruct (String.eqb x "") eqn:He.
  { apply String.eqb_eq in He. contradiction. }
  cbn [negb]. split.
  - intros Hmem. rewrite (split_no_separator x Hmem). reflexivity.
  - intros rest ->. reflexivity.
Qed.

Lemma get_client_ip_returns_entry_verbatim_witness :
  get_client_ip request_padded = Ok (Some " 1.2.3.4 ") /\
  get_client_ip request_leading_comma = Ok (Some "").
Proof.
  split.
  - apply (get_client_ip_returns_entry_verbatim request_padded " 1.2.3.4 ");
      [reflexivity | discriminate | reflexivity].
  - apply (get_client_ip_returns_entry_verbatim request_leading_comma ",5.6.7.8")
      with (rest := "5.6.7.8"); [reflexivity | discriminate | reflexivity].
Defined.

(** ** Geo location: other outcomes, invariant, repeated calls *)

(** X3: only the address-not-found condition is handled: any other
    exception of the GeoIP lookup reaches the caller, with the tables
    unchanged and nothing logged. *)
Theorem get_location_other_exception_propagates
    (geoip : string -> result (gmap string value)) (ip : string) (st : State)
    (e : exn) :
  geoip ip = Raise e -> e <> AddressNotFoundError ->
  get_location geoip ip st = (Raise e, st).
Proof.
  intros H Hne. unfold get_location. rewrite H.
  destruct e; try reflexivity. contradiction.
Qed.

Lemma get_location_other_exception_propagates_witness :
  get_location broken_geoip "1.1.1.1" australia_state
  = (Raise (OtherError "GeoIP2Exception"), australia_state).
Proof.
  apply (get_location_other_exception_propagates broken_geoip "1.1.1.1"
           australia_state (OtherError "GeoIP2Exception"));
    [reflexivity | discriminate].
Defined.

(** X4: when the lookup succeeds without a country code, get_location
    returns None and touches nothing, even if the lookup names a city:
    no Country row, no City row, no log record. *)
Theorem get_location_without_country_code
    (geoip : string -> result (gmap string value)) (ip : string) (st : State)
    (geodata : gmap string value) :
  geoip ip = Ok geodata -> dict_get geodata "country_code" = VNone ->
  get_location geoip ip st = (Ok None, st).
Proof.
  intros H Hcode. unfold get_location. rewrite H, Hcode. reflexivity.
Qed.

Lemma get_location_without_country_code_witness :
  get_location countryless_geoip "10.0.0.1" australia_state
  = (Ok None, australia_state).
Proof.
  apply (get_location_without_country_code countryless_geoip "10.0.0.1"
           australia_state
           (<["country_code" := VNone]>
            (<["country_name" := VNone]>
             (<["city" := VStr "Springfield"]> ∅))));
    reflexivity.
Defined.

(** What a get_or_create that returned tells about the table it left. *)
Lemma Country_get_or_create_ok code name tbl country created tbl' :
  Country_get_or_create code name tbl = (Ok (country, created), tbl') ->
  List.filter (Country_matches code) tbl' = [country] /\
  In country tbl' /\ Country_code country = code.
Proof.
  unfold Country_get_or_create.
  destruct (List.filter (Country_matches code) tbl) as [|x [|y l]] eqn:Hf;
    intros H; [| |discriminate]; injection H as <- <- <-.
  - repeat split.
    + rewrite List.filter_app, Hf. cbn. unfold Country_matches at 1. cbn.
      rewrite value_eqb_refl. reflexivity.
    + apply in_or_app. right. left. reflexivity.
  - assert (In x (List.filter (Country_matches code) tbl)) as Hin
      by (rewrite Hf; left; reflexivity).
    apply filter_In in Hin as [Hin Hm]. repeat split; auto.
    apply value_eqb_eq. exact Hm.
Qed.

Lemma City_get_or_create_ok name country tbl city created tbl' :
  City_get_or_create name country tbl = (Ok (city, created), tbl') ->
  List.filter (City_matches name country) tbl' = [city] /\
  In city tbl' /\ City_name city = name /\ City_country city = Country_pk country.
Proof.
  unfold City_get_or_create.
  destruct (List.filter (City_matches name country) tbl) as [|x [|y l]] eqn:Hf;
    intros H; [| |discriminate]; injection H as <- <- <-.
  - repeat split.
    + rewrite List.filter_app, Hf. cbn. unfold City_matches at 1. cbn.
      rewrite value_eqb_refl, Nat.eqb_refl. reflexivity.
    + apply in_or_app. right. left. reflexivity.
  - assert (In x (List.filter (City_matches name country) tbl)) as Hin
      by (rewrite Hf; left; reflexivity).
    apply filter_In in Hin as [Hin Hm]. unfold City_matches in Hm.
    apply andb_true_iff in Hm as [Hn Hp].
    apply value_eqb_eq in Hn. apply Nat.eqb_eq in Hp. repeat split; auto.
Qed.

(** On a table where one row answers the lookup, get_or_create returns
    that row and leaves the table alone. *)
Lemma Country_get_or_create_again code name tbl country :
  List.filter (Country_matches code) tbl = [country] ->
  Country_get_or_create code name tbl = (Ok (country, false), tbl).
Proof. intros H. unfold Country_get_or_create. rewrite H. reflexivity. Qed.

Lemma City_get_or_create_again name country tbl city :
  List.filter (City_matches name country) tbl = [city] ->
  City_get_or_create name country tbl = (Ok (city, false), tbl).
Proof. intros H. unfold City_get_or_create. rewrite H. reflexivity. Qed.

(** The shape of a call that returned for a resolved address. *)
Lemma get_location_returned geoip ip geodata st r st' :
  geoip ip = Ok geodata ->
  get_location geoip ip st = (Ok r, st') ->
  (dict_get geodata "country_code" = VNone /\ r = None /\ st' = st) \/
  (dict_get geodata "country_code" <> VNone /\
   exists name country created,
     dict_item geodata "country_name" = Ok name /\
     Country_get_or_create (dict_get geodata "country_code") name (countries st)
       = (Ok (country, created), countries st') /\
     log st' = log st /\
     ((dict_get geodata "city" = VNone /\ r = None /\ cities st' = cities st) \/
      (dict_get geodata "city" <> VNone /\
       exists city created',
         r = Some city /\
         City_get_or_create (dict_get geodata "city") country (cities st)
           = (Ok (city, created'), cities st')))).
Proof.
  intros Hgeo. unfold get_location. rewrite Hgeo.
  destruct (is_None (dict_get geodata "country_code")) eqn:Hnone; cbn [negb].
  { intros H. injection H as <- <-. left. repeat split.
    destruct (dict_get geodata "country_code"); cbn in Hnone; congruence. }
  apply is_None_false in Hnone. rewrite (dict_item_get _ _ Hnone).
  destruct (dict_item geodata "country_name") as [name | e]; [|discriminate].
  destruct (Country_get_or_create _ name (countries st))
    as [[[country created] | e] tbl] eqn:Hgoc; [|discriminate].
  destruct (is_None (dict_get geodata "city")) eqn:Hcity; cbn [negb].
  { intros H. injection H as <- <-. right. split; [exact Hnone|].
    exists name, country, created. cbn.
    split; [reflexivity|]. split; [exact Hgoc|]. split; [reflexivity|].
    left. repeat split.
    destruct (dict_get geodata "city"); cbn in Hcity; congruence. }
  apply is_None_false in Hcity. rewrite (dict_item_get _ _ Hcity). cbn [cities].
  destruct (City_get_or_create _ country (cities st))
    as [[[city created'] | e] ctbl] eqn:Hcgoc; [|discriminate].
  intros H. injection H as <- <-. right. split; [exact Hnone|].
  exists name, country, created. cbn.
  split; [reflexivity|]. split; [exact Hgoc|]. split; [reflexivity|].
  right. split; [exact Hcity|].
  exists city, created'. split; [reflexivity | exact Hcgoc].
Qed.

Lemma State_eta (st : State) :
  {| countries := countries st; cities := cities st; log := log st |} = st.
Proof. destruct st. reflexivity. Qed.

(** X5: get_location keeps both tables keyed: when no two Country rows
    share a code and no two City rows share a name and country before a
    call, the same holds after it, whatever the call's outcome. *)
Theorem get_location_keeps_tables_keyed
    (geoip : string -> result (gmap string value)) (ip : string) (st : State) :
  Country_keyed (countries st) -> City_keyed (cities st) ->
  Country_keyed (countries (snd (get_location geoip ip st))) /\
  City_keyed (cities (snd (get_location geoip ip st))).
Proof.
  intros Hck Hcik. unfold get_location.
  destruct (geoip ip) as [geodata | e].
  2:{ destruct e; cbn; split; assumption. }
  destruct (is_None (dict_get geodata "country_code")) eqn:Hnone; cbn [negb];
    [cbn; split; assumption|].
  apply is_None_false in Hnone. rewrite (dict_item_get _ _ Hnone).
  destruct (dict_item geodata "country_name") as [name | e];
    [|cbn; split; assumption].
  destruct (Country_get_or_create_keyed (dict_get geodata "country_code") name
              (countries st) Hck)
    as (country & created & tbl & -> & _ & Hck' & _).
  destruct (is_None (dict_get geodata "city")) eqn:Hcity; cbn [negb];
    [cbn; split; assumption|].
  apply is_None_false in Hcity. rewrite (dict_item_get _ _ Hcity). cbn [cities].
  destruct (City_get_or_create_keyed (dict_get geodata "city") country
              (cities st) Hcik)
    as (city & created' & ctbl & -> & _ & Hcik' & _).
  cbn. split; assumption.
Qed.

Lemma get_location_keeps_tables_keyed_witness :
  Country_keyed (countries (snd (get_location sample_geoip "1.1.1.1" empty_state))) /\
  City_keyed (cities (snd (get_location sample_geoip "1.1.1.1" empty_state))).
Proof.
  apply (get_location_keeps_tables_keyed sample_geoip "1.1.1.1" empty_state).
  - intros code. cbn. lia.
  - intros name country. cbn. lia.
Defined.

(** X6: a city that get_location returns is a row of the City table it
    leaves, carries the name the lookup gave, and refers to a row of the
    Country table that carries the code the lookup gave. *)
Theorem get_location_city_is_stored_and_linked
    (geoip : string -> result (gmap string value)) (ip : string)
    (geodata : gmap string value) (st st' : State) (city : City) :
  geoip ip = Ok geodata ->
  get_location geoip ip st = (Ok (Some city), st') ->
  In city (cities st') /\
  City_name city = dict_get geodata "city" /\
  exists country,
    In country (countries st') /\
    Country_code country = dict_get geodata "country_code" /\
    City_country city = Country_pk country.
Proof.
  intros Hgeo Hcall.
  destruct (get_location_returned _ _ _ _ _ _ Hgeo Hcall)
    as [(_ & Hr & _) | (_ & name & country & created & _ & Hgoc & _ & Hcity)];
    [discriminate|].
  destruct Hcity as [(_ & Hr & _) | (_ & city' & created' & Hr & Hcgoc)];
    [discriminate|].
  injection Hr as <-.
  apply Country_get_or_create_ok in Hgoc as (_ & Hin & Hcode).
  apply City_get_or_create_ok in Hcgoc as (_ & Hcin & Hname & Hlink).
  repeat split; auto. exists country. repeat split; auto.
Qed.

Lemma get_location_city_is_stored_and_linked_witness :
  In {| City_pk := 1; City_name := VStr "Sydney"; City_country := 1 |}
     (cities (snd (get_location sample_geoip "1.1.1.1" empty_state))).
Proof.
  eapply (get_location_city_is_stored_and_linked sample_geoip "1.1.1.1" _
            empty_state); reflexivity.
Defined.

(** X7: get_location returns None for a resolved address exactly when the
    lookup gives no country code or no city. *)
Theorem get_location_none_iff
    (geoip : string -> result (gmap string value)) (ip : string)
    (geodata : gmap string value) (st st' : State) (r : option City) :
  geoip ip = Ok geodata ->
  get_location geoip ip st = (Ok r, st') ->
  (r = None <->
   dict_get geodata "country_code" = VNone \/ dict_get geodata "city" = VNone).
Proof.
  intros Hgeo Hcall.
  destruct (get_location_returned _ _ _ _ _ _ Hgeo Hcall)
    as [(Hcode & Hr & _) | (Hcode & name & country & created & _ & _ & _ & Hcity)].
  - split; auto.
  - destruct Hcity as [(Hc & Hr & _) | (Hc & city & created' & Hr & _)].
    + split; auto.
    + split; [intros ->; discriminate | intros [H | H]; contradiction].
Qed.

Lemma get_location_none_iff_witness :
  @None City = None <->
  dict_get (<["country_code" := VNone]>
            (<["country_name" := VNone]>
             (<["city" := VStr "Springfield"]> ∅))) "country_code" = VNone \/
  dict_get (<["country_code" := VNone]>
            (<["country_name" := VNone]>
             (<["city" := VStr "Springfield"]> ∅))) "city" = VNone.
Proof.
  apply (get_location_none_iff countryless_geoip "10.0.0.1"
           (<["country_code" := VNone]>
            (<["country_name" := VNone]>
             (<["city" := VStr "Springfield"]> ∅)))
           empty_state empty_state None); reflexivity.
Defined.

(** Repeating a call for an address the lookup resolves changes
    nothing at all. *)
Lemma get_location_repeat_resolved
    (geoip : string -> result (gmap string value)) (ip : string)
    (geodata : gmap string value) (st st' : State) (r : option City) :
  geoip ip = Ok geodata ->
  get_location geoip ip st = (Ok r, st') ->
  get_location geoip ip st' = (Ok r, st').
Proof.
  intros Hgeo Hcall.
  destruct (get_location_returned _ _ _ _ _ _ Hgeo Hcall)
    as [(Hcode & -> & ->) | (Hcode & name & country & created & Hname & Hgoc & Hlog & Hcity)].
  { exact Hcall. }
  apply Country_get_or_create_ok in Hgoc as (Hfil & _ & _).
  unfold get_location. rewrite Hgeo.
  apply is_None_false in Hcode as Hnone. rewrite Hnone. cbn [negb].
  apply is_None_false in Hnone.
  rewrite (dict_item_get _ _ Hnone), Hname.
  rewrite (Country_get_or_create_again _ name _ _ Hfil).
  destruct Hcity as [(Hc & -> & _) | (Hc & city & created' & -> & Hcgoc)].
  - rewrite Hc. cbn. rewrite State_eta. reflexivity.
  - apply City_get_or_create_ok in Hcgoc as (Hcfil & _ & _).
    apply is_None_false in Hc as Hcn. rewrite Hcn. cbn [negb].
    rewrite (dict_item_get _ _ Hc). cbn [cities].
    rewrite (City_get_or_create_again _ _ _ _ Hcfil).
    rewrite State_eta. reflexivity.
Qed.

(** X8: repeating a call that returned gives the same result and leaves
    both tables exactly as they are.  When the lookup resolved the
    address the whole state is unchanged; when the address was not found
    the only change is one more warning in the log. *)
Theorem get_location_repeat_is_noop
    (geoip : string -> result (gmap string value)) (ip : string)
    (st st' : State) (r : option City) :
  get_location geoip ip st = (Ok r, st') ->
  exists st'',
    get_location geoip ip st' = (Ok r, st'') /\
    countries st'' = countries st' /\ cities st'' = cities st' /\
    (forall geodata, geoip ip = Ok geodata -> st'' = st') /\
    (geoip ip = Raise AddressNotFoundError ->
       log st'' = log st' ++
         [{| levelname := "WARNING";
             message := "Address not found for ip_address = "
                        +:+ dquote +:+ ip +:+ dquote |}]).
Proof.
  intros Hcall. destruct (geoip ip) as [geodata | e] eqn:Hgeo.
  - exists st'. split; [|repeat split; auto; discriminate].
    exact (get_location_repeat_resolved geoip ip geodata st st' r Hgeo Hcall).
  - unfold get_location in Hcall |- *. rewrite Hgeo in Hcall |- *.
    destruct e; try discriminate.
    injection Hcall as <- <-. eexists. split; [reflexivity|].
    cbn. repeat split; auto. discriminate.
Qed.

Lemma get_location_repeat_is_noop_witness :
  (exists st'',
     get_location sample_geoip "1.1.1.1"
       (snd (get_location sample_geoip "1.1.1.1" empty_state))
     = (fst (get_location sample_geoip "1.1.1.1" empty_state), st'') /\
     st'' = snd (get_location sample_geoip "1.1.1.1" empty_state)) /\
  (exists st'',
     get_location sample_geoip "203.0.113.7"
       (snd (get_location sample_geoip "203.0.113.7" empty_state))
     = (Ok None, st'') /\
     countries st'' = [] /\ cities st'' = [] /\ length (log st'') = 2%nat).
Proof.
  split.
  - destruct (get_location_repeat_is_noop sample_geoip "1.1.1.1" empty_state
                (snd (get_location sample_geoip "1.1.1.1" empty_state))
                (Some {| City_pk := 1; City_name := VStr "Sydney"; City_country := 1 |})
                eq_refl)
      as (st'' & Hcall & _ & _ & Hsame & _).
    exists st''. split; [exact Hcall|]. eapply Hsame. reflexivity.
  - destruct (get_location_repeat_is_noop sample_geoip "203.0.113.7" empty_state
                (snd (get_location sample_geoip "203.0.113.7" empty_state))
                None eq_refl)
      as (st'' & Hcall & Hc & Hci & _ & Hlog).
    exists st''. split; [exact Hcall|]. rewrite Hc, Hci, Hlog by reflexivity.
    repeat split; reflexivity.
Defined.

(** X9: get_location does not handle duplicates: when two or more
    Country rows carry the looked-up code, MultipleObjectsReturned reaches
    the caller and the state is left as it was. *)
Theorem get_location_duplicate_country_raises
    (geoip : string -> result (gmap string value)) (ip : string)
    (geodata : gmap string value) (name : value) (st : State) :
  geoip ip = Ok geodata ->
  dict_get geodata "country_code" <> VNone ->
  geodata !! "country_name" = Some name ->
  (2 <= length (List.filter (Country_matches (dict_get geodata "country_code"))
                  (countries st)))%nat ->
  get_location geoip ip st = (Raise MultipleObjectsReturned, st).
Proof.
  intros Hgeo Hcode Hname Hdup. unfold get_location. rewrite Hgeo.
  apply is_None_false in Hcode as Hnone. rewrite Hnone. cbn [negb].
  rewrite (dict_item_get _ _ Hcode). unfold dict_item. rewrite Hname.
  unfold Country_get_or_create.
  destruct (List.filter _ (countries st)) as [|x [|y l]]; cbn in Hdup; try lia.
  rewrite State_eta. reflexivity.
Qed.

Lemma get_location_duplicate_country_raises_witness :
  get_location sample_geoip "1.1.1.1" duplicate_state
  = (Raise MultipleObjectsReturned, duplicate_state).
Proof.
  apply (get_location_duplicate_country_raises sample_geoip "1.1.1.1"
           (<["country_code" := VStr "AU"]>
            (<["country_name" := VStr "Australia"]>
             (<["city" := VStr "Sydney"]> ∅)))
           (VStr "Australia") duplicate_state);
    [reflexivity | discriminate | reflexivity | vm_compute; lia].
Defined.

(** ** UUID check: what is accepted and what is not *)

Lemma replace_from_empty_length (old : string) (s : string) (skip : nat) :
  (String.length (Str.replace_from old "" skip s) <= String.length s)%nat.
Proof.
  revert skip. induction s as [|c r IH]; intros skip; [cbn; lia|].
  cbn [Str.replace_from]. destruct skip as [|k].
  - destruct (String.prefix old (String c r)).
    + rewrite append_nil_l. specialize (IH (Nat.pred (String.length old))).
      cbn [String.length]. lia.
    + specialize (IH O). cbn [String.length]. lia.
  - specialize (IH k). cbn [String.length]. lia.
Qed.

Lemma lstrip_length (chars s : string) :
  (String.length (Str.lstrip chars s) <= String.length s)%nat.
Proof.
  induction s as [|c r IH]; [cbn; lia|].
  cbn [Str.lstrip]. destruct (Str.mem c chars); cbn [String.length]; lia.
Qed.

Lemma rstrip_length (chars s : string) :
  (String.length (Str.rstrip chars s) <= String.length s)%nat.
Proof.
  induction s as [|c r IH]; [cbn; lia|].
  cbn [Str.rstrip]. destruct (Str.rstrip chars r) as [|d r'].
  - destruct (Str.mem c chars); cbn [String.length]; lia.
  - cbn [String.length] in *. lia.
Qed.

(** What the parser hands to [int] is never longer than its argument. *)
Lemma cleaned_length (s : string) :
  (String.length
     (Str.replace "-" ""
        (Str.strip "{}" (Str.replace "uuid:" "" (Str.replace "urn:" "" s))))
   <= String.length s)%nat.
Proof.
  unfold Str.replace, Str.strip.
  pose proof (replace_from_empty_length "urn:" s O) as H1.
  pose proof (replace_from_empty_length "uuid:" (Str.replace_from "urn:" "" O s) O) as H2.
  pose proof (lstrip_length "{}" (Str.replace_from "uuid:" "" O (Str.replace_from "urn:" "" O s))) as H3.
  pose proof (rstrip_length "{}" (Str.lstrip "{}" (Str.replace_from "uuid:" "" O (Str.replace_from "urn:" "" O s)))) as H4.
  pose proof (replace_from_empty_length "-"
                (Str.rstrip "{}" (Str.lstrip "{}" (Str.replace_from "uuid:" "" O (Str.replace_from "urn:" "" O s)))) O) as H5.
  lia.
Qed.

(** X10: a string of fewer than 32 characters is never a UUID: is_uuid
    returns false for it, the empty string included, without consulting
    the digits at all. *)
Theorem is_uuid_short_string_false (int_ : string -> Z -> option Z) (s : string) :
  (String.length s < 32)%nat -> is_uuid int_ (VStr s) = Ok false.
Proof.
  intros Hlen. unfold is_uuid, UUID.
  pose proof (cleaned_length s) as Hc.
  destruct (Nat.eqb _ 32) eqn:He.
  - apply Nat.eqb_eq in He. lia.
  - reflexivity.
Qed.

Lemma is_uuid_short_string_false_witness :
  is_uuid int_hex (VStr "") = Ok false /\
  is_uuid int_hex (VStr "123e4567-e89b-12d3-a456") = Ok false.
Proof.
  split; apply (is_uuid_short_string_false int_hex); cbn; lia.
Defined.

(** Removing the hyphens of a string of digits and hyphens leaves its
    digits. *)
Lemma remove_hyphen_digits (s : string) :
  all_chars (fun c => is_hex c || Ascii.eqb c "-") s = true ->
  all_chars is_hex (Str.replace_from "-" "" O s) = true /\
  String.length (Str.replace_from "-" "" O s) = count_hex s.
Proof.
  induction s as [|c r IH]; [intros _; split; reflexivity|].
  cbn [all_chars]. intros H. apply andb_true_iff in H as [Hc Hr].
  destruct (IH Hr) as [IH1 IH2].
  cbn [Str.replace_from String.prefix String.length Nat.pred count_hex].
  destruct (ascii_dec "-" c) as [<- | Hne].
  - rewrite prefix_empty, append_nil_l. split; [exact IH1|].
    rewrite IH2. reflexivity.
  - assert (is_hex c = true) as Hhex.
    { apply orb_true_iff in Hc as [Hc | Hc]; [exact Hc|].
      apply Ascii.eqb_eq in Hc. congruence. }
    rewrite Hhex. cbn [all_chars String.length]. rewrite Hhex, IH1, IH2.
    split; reflexivity.
Qed.

(** X11: hyphens are ignored wherever they stand: any string made of
    hexadecimal digits and hyphens that holds exactly 32 digits is
    accepted by is_uuid, grouped canonically or not. *)
Theorem is_uuid_ignores_hyphen_placement
    (int_ : string -> Z -> option Z) (s : string) :
  int_reads_hex int_ ->
  all_chars (fun c => is_hex c || Ascii.eqb c "-") s = true ->
  count_hex s = 32%nat ->
  is_uuid int_ (VStr s) = Ok true.
Proof.
  intros Hint Hchars Hcount.
  assert (Str.mem "u" s = false) as Hu.
  { eapply all_chars_not_mem; [exact Hchars | reflexivity]. }
  destruct (remove_hyphen_digits s Hchars) as [Hhex Hlen].
  unfold is_uuid, UUID, Str.replace.
  rewrite (replace_from_absent "u" "rn:" "" s Hu).
  rewrite (replace_from_absent "u" "uid:" "" s Hu).
  rewrite (strip_none "{}" s)
    by (eapply all_chars_impl; [apply uuid_char_not_brace | exact Hchars]).
  rewrite Hlen, Hcount. cbn [Nat.eqb negb].
  rewrite (Hint _ ltac:(intros Hnil; rewrite Hnil in Hlen; cbn in Hlen; lia) Hhex).
  pose proof (hex_value_bound _ Hhex) as Hb. rewrite Hlen, Hcount in Hb.
  change (16 ^ Z.of_nat 32) with (Z.shiftl 1 128) in Hb.
  destruct Hb as [Hb1 Hb2].
  apply Z.leb_le in Hb1. apply Z.ltb_lt in Hb2. rewrite Hb1, Hb2.
  reflexivity.
Qed.

Lemma is_uuid_ignores_hyphen_placement_witness :
  is_uuid int_hex (VStr "123e4567e89b12d3a456426614174000") = Ok true /\
  is_uuid int_hex (VStr "-1-23e4567e89b12d3a45642661417400--0") = Ok true.
Proof.
  split; apply (is_uuid_ignores_hyphen_placement int_hex);
    solve [apply int_hex_reads_hex | reflexivity].
Defined.

(** X12: is_uuid converts only the malformed-format error: a value that
    is not a string makes the parser fail in another way, and that
    exception reaches the caller (TypeError for None, AttributeError for a
    boolean or an integer). *)
Theorem is_uuid_non_string_raises (int_ : string -> Z -> option Z) (v : value) :
  (forall s, v <> VStr s) ->
  is_uuid int_ v = Raise (if is_None v then TypeError else AttributeError).
Proof.
  intros Hv. destruct v; try reflexivity. exfalso. eapply Hv. reflexivity.
Qed.

Lemma is_uuid_non_string_raises_witness :
  is_uuid int_hex VNone = Raise TypeError /\
  is_uuid int_hex (VInt 7) = Raise AttributeError.
Proof.
  split.
  - apply (is_uuid_non_string_raises int_hex VNone). discriminate.
  - apply (is_uuid_non_string_raises int_hex (VInt 7)). discriminate.
Defined.

Lemma mem_append (c : ascii) (a b : string) :
  Str.mem c (a +:+ b) = Str.mem c a || Str.mem c b.
Proof.
  induction a as [|d a IH]; [reflexivity|].
  rewrite append_cons. cbn [Str.mem]. rewrite IH. apply orb_assoc.
Qed.

Lemma rstrip_none (chars s : string) :
  all_chars (fun c => negb (Str.mem c chars)) s = true -> Str.rstrip chars s = s.
Proof.
  induction s as [|c s IH]; [reflexivity|]. cbn [all_chars Str.rstrip].
  intros H. apply andb_true_iff in H as [Hc Hs]. apply negb_true_iff in Hc.
  rewrite (IH Hs), Hc. destruct s; reflexivity.
Qed.

Lemma rstrip_append_stripped (chars s : string) (c : ascii) :
  Str.mem c chars = true ->
  Str.rstrip chars (s +:+ String c "") = Str.rstrip chars s.
Proof.
  intros Hc. induction s as [|d s IH].
  - rewrite append_nil_l. cbn. rewrite Hc. reflexivity.
  - rewrite append_cons. cbn [Str.rstrip]. rewrite IH. reflexivity.
Qed.

(** Once the prefixes and braces are gone, digits and hyphens with 32
    digits among them are accepted. *)
Lemma is_uuid_after_cleaning (int_ : string -> Z -> option Z) (t s : string) :
  int_reads_hex int_ ->
  Str.strip "{}" (Str.replace "uuid:" "" (Str.replace "urn:" "" t)) = s ->
  all_chars (fun c => is_hex c || Ascii.eqb c "-") s = true ->
  count_hex s = 32%nat ->
  is_uuid int_ (VStr t) = Ok true.
Proof.
  intros Hint Hclean Hchars Hcount.
  destruct (remove_hyphen_digits s Hchars) as [Hhex Hlen].
  unfold is_uuid, UUID. rewrite Hclean. unfold Str.replace.
  rewrite Hlen, Hcount. cbn [Nat.eqb negb].
  rewrite (Hint _ ltac:(intros Hnil; rewrite Hnil in Hlen; cbn in Hlen; lia) Hhex).
  pose proof (hex_value_bound _ Hhex) as Hb. rewrite Hlen, Hcount in Hb.
  change (16 ^ Z.of_nat 32) with (Z.shiftl 1 128) in Hb.
  destruct Hb as [Hb1 Hb2].
  apply Z.leb_le in Hb1. apply Z.ltb_lt in Hb2. rewrite Hb1, Hb2.
  reflexivity.
Qed.

(** X13: the parser's other spellings are accepted too: a string that
    is_uuid accepts as digits and hyphens is also accepted when wrapped in
    braces and when prefixed with urn:uuid:. *)
Theorem is_uuid_accepts_braces_and_urn
    (int_ : string -> Z -> option Z) (s : string) :
  int_reads_hex int_ ->
  all_chars (fun c => is_hex c || Ascii.eqb c "-") s = true ->
  count_hex s = 32%nat ->
  is_uuid int_ (VStr ("{" +:+ s +:+ "}")) = Ok true /\
  is_uuid int_ (VStr ("urn:uuid:" +:+ s)) = Ok true.
Proof.
  intros Hint Hchars Hcount.
  assert (Str.mem "u" s = false) as Hu.
  { eapply all_chars_not_mem; [exact Hchars | reflexivity]. }
  assert (all_chars (fun c => negb (Str.mem c "{}")) s = true) as Hbr.
  { eapply all_chars_impl; [apply uuid_char_not_brace | exact Hchars]. }
  split; apply (is_uuid_after_cleaning int_ _ s Hint); auto.
  - assert (Str.mem "u" ("{" +:+ s +:+ "}") = false) as Hu'.
    { rewrite !mem_append, Hu. reflexivity. }
    unfold Str.replace.
    rewrite (replace_from_absent "u" "rn:" "" _ Hu').
    rewrite (replace_from_absent "u" "uid:" "" _ Hu').
    unfold Str.strip. change ("{" +:+ s +:+ "}") with (String "{" (s +:+ "}")).
    cbn [Str.lstrip Str.mem Ascii.eqb Bool.eqb orb].
    destruct s as [|c r]; [discriminate Hcount|].
    rewrite append_cons. cbn [Str.lstrip].
    cbn [all_chars] in Hbr. apply andb_true_iff in Hbr as [Hc Hr].
    apply negb_true_iff in Hc. rewrite Hc, <- append_cons.
    rewrite (rstrip_append_stripped "{}" (String c r) "}" eq_refl).
    apply rstrip_none. cbn [all_chars]. rewrite Hc, Hr. reflexivity.
  - unfold Str.replace.
    change ("urn:uuid:" +:+ s)
      with (String "u" (String "r" (String "n" (String ":"
             (String "u" (String "u" (String "i" (String "d" (String ":" s))))))))).
    cbn [Str.replace_from String.prefix String.length Nat.pred].
    cbn. rewrite ?append_nil_l, ?prefix_empty.
    rewrite (replace_from_absent "u" "rn:" "" _ Hu).
    cbn. rewrite ?append_nil_l, ?prefix_empty.
    rewrite (replace_from_absent "u" "uid:" "" _ Hu).
    rewrite ?append_nil_l.
    apply strip_none. exact Hbr.
Qed.

Lemma is_uuid_accepts_braces_and_urn_witness :
  is_uuid int_hex (VStr "{123e4567-e89b-12d3-a456-426614174000}") = Ok true /\
  is_uuid int_hex (VStr "urn:uuid:123e4567-e89b-12d3-a456-426614174000") = Ok true.
Proof.
  apply (is_uuid_accepts_braces_and_urn int_hex
           "123e4567-e89b-12d3-a456-426614174000");
    solve [apply int_hex_reads_hex | reflexivity].
Defined.

(** ** Campaign connection: what is and is not assigned *)

(** The attributes of the returned connection, in terms of the one the
    factory made. *)
Lemma get_campaign_connection_attributes
    (get_connection : gmap string value -> result Connection)
    (c : Campaign) (base : Connection) :
  let ml := mailing_list c in
  get_connection (connection_keywords ml) = Ok base ->
  exists connection,
    get_campaign_connection get_connection (Obj c) = Ok connection /\
    host connection = host base /\ port connection = port base /\
    username connection = username base /\ password connection = password base /\
    use_tls connection =
      (if truthy (resolved_use_tls ml) then resolved_use_tls ml else use_tls base) /\
    timeout connection =
      (if truthy (smtp_timeout ml) then smtp_timeout ml else timeout base) /\
    use_ssl connection =
      (if truthy (smtp_use_ssl ml) && truthy (smtp_ssl_certfile ml)
          && truthy (smtp_ssl_keyfile ml)
       then smtp_use_ssl ml else use_ssl base) /\
    ssl_keyfile connection =
      (if truthy (smtp_use_ssl ml) && truthy (smtp_ssl_certfile ml)
          && truthy (smtp_ssl_keyfile ml)
       then smtp_ssl_keyfile ml else ssl_keyfile base) /\
    ssl_certfile connection =
      (if truthy (smtp_use_ssl ml) && truthy (smtp_ssl_certfile ml)
          && truthy (smtp_ssl_keyfile ml)
       then smtp_ssl_certfile ml else ssl_certfile base).
Proof.
  intros ml Hbase.
  rewrite get_campaign_connection_campaign. fold ml. cbv zeta. rewrite Hbase.
  eexists. split; [reflexivity|].
  destruct (truthy (resolved_use_tls ml)), (truthy (smtp_timeout ml)),
           (truthy (smtp_use_ssl ml) && truthy (smtp_ssl_certfile ml)
            && truthy (smtp_ssl_keyfile ml));
    cbn; repeat split; reflexivity.
Qed.

(** X14: get_campaign_connection never assigns host, port, username or
    password: on the returned connection they are what the factory made
    of the keywords it was given. *)
Theorem get_campaign_connection_keeps_endpoint
    (get_connection : gmap string value -> result Connection)
    (c : Campaign) (base : Connection) :
  get_connection (connection_keywords (mailing_list c)) = Ok base ->
  exists connection,
    get_campaign_connection get_connection (Obj c) = Ok connection /\
    host connection = host base /\ port connection = port base /\
    username connection = username base /\ password connection = password base.
Proof.
  intros Hbase.
  destruct (get_campaign_connection_attributes get_connection c base Hbase)
    as (connection & Hret & Hh & Hp & Hu & Hpw & _).
  exists connection. repeat split; assumption.
Qed.

Lemma get_campaign_connection_keeps_endpoint_witness :
  exists connection,
    get_campaign_connection (EmailBackend tls_settings)
      (Obj {| mailing_list := plain_mailing_list |}) = Ok connection /\
    host connection = VStr "mail.example.org" /\ port connection = VInt 2525 /\
    username connection = VStr "list" /\ password connection = VStr "pw".
Proof.
  apply (get_campaign_connection_keeps_endpoint (EmailBackend tls_settings)
           {| mailing_list := plain_mailing_list |}
           {| host := VStr "mail.example.org"; port := VInt 2525;
              username := VStr "list"; password := VStr "pw";
              use_tls := VBool true; use_ssl := VBool false;
              timeout := VInt 10; ssl_keyfile := VNone; ssl_certfile := VNone |}).
  reflexivity.
Defined.

(** X15: the campaign's timeout is applied only when it is truthy: a
    timeout of None or 0 leaves the factory's timeout on the connection. *)
Theorem get_campaign_connection_timeout
    (get_connection : gmap string value -> result Connection)
    (c : Campaign) (base : Connection) :
  get_connection (connection_keywords (mailing_list c)) = Ok base ->
  exists connection,
    get_campaign_connection get_connection (Obj c) = Ok connection /\
    (truthy (smtp_timeout (mailing_list c)) = true ->
       timeout connection = smtp_timeout (mailing_list c)) /\
    (smtp_timeout (mailing_list c) = VNone \/ smtp_timeout (mailing_list c) = VInt 0 ->
       timeout connection = timeout base).
Proof.
  intros Hbase.
  destruct (get_campaign_connection_attributes get_connection c base Hbase)
    as (connection & Hret & _ & _ & _ & _ & _ & Hto & _).
  exists connection. split; [exact Hret|]. rewrite Hto. split.
  - intros ->. reflexivity.
  - intros [-> | ->]; reflexivity.
Qed.

Lemma get_campaign_connection_timeout_witness :
  exists connection,
    get_campaign_connection (EmailBackend tls_settings)
      (Obj {| mailing_list := plain_mailing_list |}) = Ok connection /\
    timeout connection = VInt 10.
Proof.
  destruct (get_campaign_connection_timeout (EmailBackend tls_settings)
              {| mailing_list := plain_mailing_list |}
              {| host := VStr "mail.example.org"; port := VInt 2525;
                 username := VStr "list"; password := VStr "pw";
                 use_tls := VBool true; use_ssl := VBool false;
                 timeout := VInt 10; ssl_keyfile := VNone; ssl_certfile := VNone |})
    as (connection & Hret & _ & Hzero); [reflexivity|].
  exists connection. split; [exact Hret|]. apply Hzero. right. reflexivity.
Defined.

(** X16: a campaign cannot switch STARTTLS off: when its use-tls flag is
    falsy nothing is assigned to use_tls, so the connection keeps the
    factory's value, which is true when the project's settings turn TLS
    on. *)
Theorem get_campaign_connection_cannot_disable_tls
    (get_connection : gmap string value -> result Connection)
    (c : Campaign) (base : Connection) :
  get_connection (connection_keywords (mailing_list c)) = Ok base ->
  truthy (smtp_use_tls (mailing_list c)) = false ->
  exists connection,
    get_campaign_connection get_connection (Obj c) = Ok connection /\
    use_tls connection = use_tls base.
Proof.
  intros Hbase Htls.
  destruct (get_campaign_connection_attributes get_connection c base Hbase)
    as (connection & Hret & _ & _ & _ & _ & Hu & _).
  exists connection. split; [exact Hret|]. rewrite Hu.
  unfold resolved_use_tls, py_or. rewrite Htls. reflexivity.
Qed.

Lemma get_campaign_connection_cannot_disable_tls_witness :
  exists connection,
    get_campaign_connection (EmailBackend tls_settings)
      (Obj {| mailing_list := plain_mailing_list |}) = Ok connection /\
    use_tls connection = VBool true.
Proof.
  apply (get_campaign_connection_cannot_disable_tls (EmailBackend tls_settings)
           {| mailing_list := plain_mailing_list |}
           {| host := VStr "mail.example.org"; port := VInt 2525;
              username := VStr "list"; password := VStr "pw";
              use_tls := VBool true; use_ssl := VBool false;
              timeout := VInt 10; ssl_keyfile := VNone; ssl_certfile := VNone |});
    reflexivity.
Defined.

(** X17: the SSL files alone select nothing: when the campaign's use-ssl
    flag is falsy, use_ssl, ssl_keyfile and ssl_certfile stay as the
    factory made them even though both the certificate file and the key
    file are given. *)
Theorem get_campaign_connection_ssl_needs_flag
    (get_connection : gmap string value -> result Connection)
    (c : Campaign) (base : Connection) :
  get_connection (connection_keywords (mailing_list c)) = Ok base ->
  truthy (smtp_use_ssl (mailing_list c)) = false ->
  exists connection,
    get_campaign_connection get_connection (Obj c) = Ok connection /\
    use_ssl connection = use_ssl base /\
    ssl_keyfile connection = ssl_keyfile base /\
    ssl_certfile connection = ssl_certfile base.
Proof.
  intros Hbase Hssl.
  destruct (get_campaign_connection_attributes get_connection c base Hbase)
    as (connection & Hret & _ & _ & _ & _ & _ & _ & Hs & Hk & Hc).
  exists connection. split; [exact Hret|]. rewrite Hs, Hk, Hc, Hssl.
  repeat split; reflexivity.
Qed.

Lemma get_campaign_connection_ssl_needs_flag_witness :
  exists connection,
    get_campaign_connection (EmailBackend tls_settings)
      (Obj {| mailing_list := plain_mailing_list |}) = Ok connection /\
    use_ssl connection = VBool false /\
    ssl_keyfile connection = VNone /\
    ssl_certfile connection = VNone.
Proof.
  apply (get_campaign_connection_ssl_needs_flag (EmailBackend tls_settings)
           {| mailing_list := plain_mailing_list |}
           {| host := VStr "mail.example.org"; port := VInt 2525;
              username := VStr "list"; password := VStr "pw";
              use_tls := VBool true; use_ssl := VBool false;
              timeout := VInt 10; ssl_keyfile := VNone; ssl_certfile := VNone |});
    reflexivity.
Defined.

(** The keywords of the factory call are never None. *)
Lemma connection_keywords_lookup (ml : MailingList) :
  dict_get (connection_keywords ml) "host" = py_or (smtp_host ml) (VStr "localhost") /\
  dict_get (connection_keywords ml) "port" = py_or (smtp_port ml) (VInt 25) /\
  dict_get (connection_keywords ml) "username" = py_or (smtp_username ml) (VStr "") /\
  dict_get (connection_keywords ml) "password" = py_or (smtp_password ml) (VStr "") /\
  dict_get (connection_keywords ml) "use_tls" = VNone /\
  dict_get (connection_keywords ml) "use_ssl" = VNone.
Proof. repeat split; reflexivity. Qed.

Lemma py_or_truthy (a b : value) : truthy b = true -> truthy (py_or a b) = true.
Proof. unfold py_or. destruct (truthy a) eqn:Ha; auto. Qed.

Lemma py_or_left (a b : value) : truthy a = true -> py_or a b = a.
Proof. unfold py_or. intros ->. reflexivity. Qed.

Lemma py_or_not_None (a b : value) : b <> VNone -> is_None (py_or a b) = false.
Proof.
  unfold py_or. destruct (truthy a) eqn:Ha.
  - destruct a; cbn in *; congruence.
  - intros Hb. apply is_None_false. exact Hb.
Qed.

(** X18: with Django's SMTP backend, under any project settings the
    backend accepts, a campaign always gets a connection, and each of
    host, port, username and password that the mailing list sets to a
    non-empty value is what the connection carries. *)
Theorem get_campaign_connection_override_wins (settings : Settings) (c : Campaign) :
  truthy (EMAIL_USE_SSL settings) && truthy (EMAIL_USE_TLS settings) = false ->
  exists connection,
    get_campaign_connection (EmailBackend settings) (Obj c) = Ok connection /\
    (truthy (smtp_host (mailing_list c)) = true ->
       host connection = smtp_host (mailing_list c)) /\
    (truthy (smtp_port (mailing_list c)) = true ->
       port connection = smtp_port (mailing_list c)) /\
    (truthy (smtp_username (mailing_list c)) = true ->
       username connection = smtp_username (mailing_list c)) /\
    (truthy (smtp_password (mailing_list c)) = true ->
       password connection = smtp_password (mailing_list c)).
Proof.
  intros Hok.
  destruct (connection_keywords_lookup (mailing_list c))
    as (Hh & Hp & Hu & Hpw & Htls & Hssl).
  assert (exists base, EmailBackend settings (connection_keywords (mailing_list c)) = Ok base /\
            host base = py_or (smtp_host (mailing_list c)) (VStr "localhost") /\
            port base = py_or (smtp_port (mailing_list c)) (VInt 25) /\
            username base = py_or (smtp_username (mailing_list c)) (VStr "") /\
            password base = py_or (smtp_password (mailing_list c)) (VStr ""))
    as (base & Hbase & Bh & Bp & Bu & Bpw).
  { unfold EmailBackend. cbn [use_ssl use_tls].
    rewrite Htls, Hssl. cbn [is_None]. rewrite Hok.
    eexists. split; [reflexivity|]. cbn [host port username password].
    rewrite Hh, Hp, Hu, Hpw.
    rewrite !py_or_not_None by discriminate.
    rewrite !(py_or_left (py_or _ _)) by (apply py_or_truthy; reflexivity).
    repeat split; reflexivity. }
  destruct (get_campaign_connection_attributes (EmailBackend settings) c base Hbase)
    as (connection & Hret & Ch & Cp & Cu & Cpw & _).
  exists connection. split; [exact Hret|].
  rewrite Ch, Cp, Cu, Cpw, Bh, Bp, Bu, Bpw. unfold py_or.
  repeat split; intros ->; reflexivity.
Qed.

Lemma get_campaign_connection_override_wins_witness :
  exists connection,
    get_campaign_connection (EmailBackend tls_settings)
      (Obj {| mailing_list := plain_mailing_list |}) = Ok connection /\
    host connection = VStr "mail.example.org" /\
    port connection = VInt 2525.
Proof.
  destruct (get_campaign_connection_override_wins tls_settings
              {| mailing_list := plain_mailing_list |})
    as (connection & Hret & Hh & Hp & _); [reflexivity|].
  exists connection. split; [exact Hret|].
  split; [apply Hh | apply Hp]; reflexivity.
Defined.

(** ** Absolute URLs *)

Lemma prefix_append (a b : string) : String.prefix a (a +:+ b) = true.
Proof.
  induction a as [|c a IH]; [apply prefix_empty|].
  rewrite append_cons. cbn [String.prefix].
  destruct (ascii_dec c c); [exact IH | congruence].
Qed.

(** X19: when the site and the route are found, get_absolute_url returns
    the scheme, the site's domain and the reversed path joined with
    nothing in between, and the scheme follows the HTTPS-only setting:
    the URL begins with https:// exactly when the setting is truthy, and
    with http:// otherwise. *)
Theorem get_absolute_url_scheme_follows_setting
    (COLOSSUS_HTTPS_ONLY : value) (get_current_site : result Site)
    (reverse : string -> option (gmap string value) -> result string)
    (urlname : string) (kwargs : option (gmap string value))
    (site : Site) (path : string) :
  get_current_site = Ok site ->
  reverse urlname kwargs = Ok path ->
  exists url,
    get_absolute_url COLOSSUS_HTTPS_ONLY get_current_site reverse urlname kwargs
      = Ok url /\
    url = (if truthy COLOSSUS_HTTPS_ONLY then "https://" else "http://")
          +:+ domain site +:+ path /\
    String.prefix "https://" url = truthy COLOSSUS_HTTPS_ONLY /\
    String.prefix "http://" url = negb (truthy COLOSSUS_HTTPS_ONLY).
Proof.
  intros Hsite Hrev. unfold get_absolute_url. rewrite Hsite, Hrev.
  eexists. split; [reflexivity|].
  destruct (truthy COLOSSUS_HTTPS_ONLY).
  - change ("https" +:+ "://" +:+ domain site +:+ path)
      with ("https://" +:+ domain site +:+ path).
    split; [reflexivity|]. split; [apply prefix_append | reflexivity].
  - change ("http" +:+ "://" +:+ domain site +:+ path)
      with ("http://" +:+ domain site +:+ path).
    split; [reflexivity|]. split; [reflexivity | apply prefix_append].
Qed.

Lemma get_absolute_url_scheme_follows_setting_witness :
  get_absolute_url (VBool true) example_site example_reverse
    "subscribers:unsubscribe" None
  = Ok "https://lists.example.com/unsubscribe/42/".
Proof.
  destruct (get_absolute_url_scheme_follows_setting (VBool true) example_site
              example_reverse "subscribers:unsubscribe" None
              {| domain := "lists.example.com" |} "/unsubscribe/42/")
    as (url & -> & -> & _); reflexivity.
Defined.

(** ** Admin registrations *)

Lemma register_fresh (model : string) (registry : gset string) :
  model ∉ registry -> register model registry = (Ok tt, {[model]} ∪ registry).
Proof. intros H. unfold register. rewrite bool_decide_eq_false_2; auto. Qed.

Lemma register_taken (model : string) (registry : gset string) :
  model ∈ registry ->
  register model registry = (Raise (OtherError "AlreadyRegistered"), registry).
Proof. intros H. unfold register. rewrite bool_decide_eq_true_2; auto. Qed.

Lemma not_registered (models registry : gset string) (model : string) :
  models ## registry -> model ∈ models -> model ∉ registry.
Proof. intros Hd Hm Hin. exact (Hd model Hm Hin). Qed.

Ltac fresh_model Hd :=
  repeat (apply not_elem_of_union; split);
  [ apply not_elem_of_singleton; discriminate ..
  | apply (not_registered _ _ _ Hd); set_unfold; tauto ].

Lemma core_admin_fresh (registry : gset string) :
  core_models ## registry ->
  core_admin registry = (Ok tt, core_models ∪ registry).
Proof.
  intros Hd. unfold core_admin.
  rewrite register_fresh
    by (apply (not_registered _ _ _ Hd); unfold core_models; set_unfold; tauto).
  cbn [and_then].
  rewrite register_fresh by (unfold core_models in Hd; fresh_model Hd). cbn [and_then].
  rewrite register_fresh by (unfold core_models in Hd; fresh_model Hd). cbn [and_then].
  rewrite register_fresh by (unfold core_models in Hd; fresh_model Hd).
  f_equal. unfold core_models. clear. set_unfold. intros x. tauto.
Qed.

Ltac still_fresh :=
  repeat (apply not_elem_of_union; split);
  [ apply not_elem_of_singleton; discriminate .. | assumption ].

Ltac already_there := repeat apply elem_of_union_r; assumption.

(** X20: loading the core admin module registers exactly Token, Option,
    Country and City and keeps every earlier registration when none of the
    four is registered yet; it fails with AlreadyRegistered exactly when
    one of them already is. *)
Theorem core_admin_registers_four (registry : gset string) :
  (core_models ## registry ->
     core_admin registry = (Ok tt, core_models ∪ registry)) /\
  (fst (core_admin registry) = Ok tt <-> core_models ## registry) /\
  (~ core_models ## registry ->
     fst (core_admin registry) = Raise (OtherError "AlreadyRegistered")).
Proof.
  pose proof (core_admin_fresh registry) as Hfresh.
  assert (~ core_models ## registry ->
          fst (core_admin registry) = Raise (OtherError "AlreadyRegistered")) as Htaken.
  { intros Hnd. unfold core_admin.
    destruct (decide ("core.Token" ∈ registry)) as [H1 | H1].
    { rewrite register_taken by exact H1. reflexivity. }
    rewrite register_fresh by exact H1. cbn [and_then].
    destruct (decide ("core.Option" ∈ registry)) as [H2 | H2].
    { rewrite register_taken by already_there. reflexivity. }
    rewrite register_fresh by still_fresh. cbn [and_then].
    destruct (decide ("core.Country" ∈ registry)) as [H3 | H3].
    { rewrite register_taken by already_there. reflexivity. }
    rewrite register_fresh by still_fresh. cbn [and_then].
    destruct (decide ("core.City" ∈ registry)) as [H4 | H4].
    { rewrite register_taken by already_there. reflexivity. }
    exfalso. apply Hnd. unfold core_models. intros x Hx Hin.
    set_unfold. destruct_or!; subst; contradiction. }
  split; [exact Hfresh|]. split; [|exact Htaken].
  split.
  - intros Hok. destruct (decide (core_models ## registry)) as [Hd | Hnd]; [exact Hd|].
    rewrite (Htaken Hnd) in Hok. discriminate.
  - intros Hd. rewrite (Hfresh Hd). reflexivity.
Qed.

Lemma core_admin_registers_four_witness :
  core_admin ∅ = (Ok tt, core_models ∪ ∅) /\
  fst (core_admin {[ "core.Country" ]}) = Raise (OtherError "AlreadyRegistered").
Proof.
  split.
  - apply (core_admin_registers_four ∅). apply disjoint_empty_r.
  - apply (core_admin_registers_four {[ "core.Country" ]}).
    intros Hd. apply (Hd "core.Country"); unfold core_models; set_unfold; tauto.
Defined.

Lemma subscribers_admin_fresh (registry : gset string) :
  subscribers_models ## registry ->
  subscribers_admin registry = (Ok tt, subscribers_models ∪ registry).
Proof.
  intros Hd. unfold subscribers_admin.
  rewrite register_fresh
    by (apply (not_registered _ _ _ Hd); unfold subscribers_models; set_unfold; tauto).
  cbn [and_then].
  rewrite register_fresh by (unfold subscribers_models in Hd; fresh_model Hd). cbn [and_then].
  rewrite register_fresh by (unfold subscribers_models in Hd; fresh_model Hd). cbn [and_then].
  rewrite register_fresh by (unfold subscribers_models in Hd; fresh_model Hd). cbn [and_then].
  rewrite register_fresh by (unfold subscribers_models in Hd; fresh_model Hd).
  f_equal. unfold subscribers_models. clear. set_unfold. intros x. tauto.
Qed.

Lemma core_subscribers_disjoint : core_models ## subscribers_models.
Proof.
  unfold core_models, subscribers_models. intros x H1 H2.
  set_unfold. destruct_or!; subst; discriminate.
Qed.

(** X21: the two admin modules do not interfere: on a registry that
    holds none of their nine models, loading them in either order succeeds
    and leaves the same registry, the earlier registrations plus the nine;
    SubscriberManager is not registered by either. *)
Theorem admin_modules_commute (registry : gset string) :
  core_models ## registry -> subscribers_models ## registry ->
  and_then (core_admin registry) subscribers_admin
    = (Ok tt, core_models ∪ subscribers_models ∪ registry) /\
  and_then (subscribers_admin registry) core_admin
    = (Ok tt, core_models ∪ subscribers_models ∪ registry) /\
  ("subscribers.SubscriberManager" ∉ registry ->
   "subscribers.SubscriberManager" ∉ core_models ∪ subscribers_models ∪ registry).
Proof.
  intros Hc Hs. pose proof core_subscribers_disjoint as Hcs.
  split; [|split].
  - rewrite (core_admin_fresh registry Hc). cbn [and_then].
    rewrite subscribers_admin_fresh
      by (apply disjoint_union_r; split; [symmetry; exact Hcs | exact Hs]).
    f_equal. clear. set_unfold. intros x. tauto.
  - rewrite (subscribers_admin_fresh registry Hs). cbn [and_then].
    rewrite core_admin_fresh
      by (apply disjoint_union_r; split; [exact Hcs | exact Hc]).
    f_equal. clear. set_unfold. intros x. tauto.
  - intros Hn Hin. unfold core_models, subscribers_models in Hin.
    set_unfold. destruct_or!; try discriminate. contradiction.
Qed.

Lemma admin_modules_commute_witness :
  and_then (core_admin ∅) subscribers_admin
  = and_then (subscribers_admin ∅) core_admin.
Proof.
  destruct (admin_modules_commute ∅) as (H1 & H2 & _);
    [apply disjoint_empty_r | apply disjoint_empty_r |].
  rewrite H1, H2. reflexivity.
Defined.

(** ** UUID check: the verdict on well-formed and on malformed text *)















